(** * cleanlab.internal.validation: input checks, embedded and verified

    A shallow embedding of [cleanlab/internal/validation.py].  Python
    exceptions become values of [exn], a call that may raise returns a
    [result], and the two effects of [assert_valid_inputs] that are visible
    from outside (warnings, and the queries it makes on the dataset [X]) are
    recorded in a log threaded by the monad [M]. *)

From Stdlib Require Import List ZArith QArith Lia Lqa Bool String Ascii.
From Stdlib Require Import Qminmax SetoidList Sorted Permutation.
Import ListNotations.

Set Warnings "-register-all".
Local Open Scope Z_scope.

(** ** Exceptions *)

(** The exception classes that occur.  [KeyboardInterrupt] and [SystemExit]
    derive from [BaseException] only: a bare [except:] catches them, an
    [except Exception:] does not. *)
Inductive exn_class : Type :=
| ValueError
| TypeError
| IndexError
| AttributeError
| KeyError
| ImportError
| RuntimeError
| KeyboardInterrupt
| SystemExit.

Definition is_Exception (c : exn_class) : bool :=
  match c with
  | KeyboardInterrupt | SystemExit => false
  | _ => true
  end.

(** A message is kept as the pieces of its format string: the literal text
    and, for each hole, the value that Python formats into it. *)
Inductive fragment : Type :=
| Lit (s : string)
| FmtInt (n : Z)
| FmtArr (a : list Q).

Record exn : Type := mkExn { exn_cls : exn_class; exn_msg : list fragment }.

Inductive result (A : Type) : Type :=
| Returned (a : A)
| Raised (e : exn).
Arguments Returned {A} a.
Arguments Raised {A} e.

Definition raise {A : Type} (c : exn_class) (msg : list fragment) : result A :=
  Raised (mkExn c msg).

Definition rbind {A B : Type} (r : result A) (k : A -> result B) : result B :=
  match r with
  | Returned a => k a
  | Raised e => Raised e
  end.

(** ** The log and the monad of the stateful checks *)

(** What a check asks of [X]. *)
Inductive probe : Type :=
| LenOf                          (* len(X) *)
| Shape0Of                       (* X.shape[0] *)
| IlocAt (idx : list Z)          (* X.iloc[idx] *)
| SubsetOf (idx : list Z)        (* torch.utils.data.Subset(X, idx) *)
| GetitemAt (idx : list Z).      (* X[idx] *)

Inductive event : Type :=
| Warned (msg : string)          (* warnings.warn(msg), default filter *)
| Probed (p : probe).

Definition M (A : Type) : Type := list event -> result A * list event.

Definition ret {A : Type} (a : A) : M A := fun log => (Returned a, log).

Definition bind {A B : Type} (m : M A) (k : A -> M B) : M B :=
  fun log =>
    match m log with
    | (Returned a, log') => k a log'
    | (Raised e, log') => (Raised e, log')
    end.

Definition throw {A : Type} (c : exn_class) (msg : list fragment) : M A :=
  fun log => (Raised (mkExn c msg), log).

Definition lift {A : Type} (r : result A) : M A := fun log => (r, log).

Definition emit (ev : event) : M unit := fun log => (Returned tt, log ++ [ev]).

(** [try: m; except <filter>: h] *)
Definition try_except {A : Type} (m : M A) (catches : exn -> bool) (h : M A) : M A :=
  fun log =>
    match m log with
    | (Returned a, log') => (Returned a, log')
    | (Raised e, log') => if catches e then h log' else (Raised e, log')
    end.

(** The filter of a bare [except:] and of [except Exception:]. *)
Definition any_exn (e : exn) : bool := true.
Definition Exception (e : exn) : bool := is_Exception (exn_cls e).

Declare Scope py_scope.
Delimit Scope py_scope with py.
Notation "x <- m ;; k" := (bind m (fun x => k))
  (at level 61, m at next level, right associativity) : py_scope.
Notation "m ;; k" := (bind m (fun _ => k))
  (at level 61, right associativity) : py_scope.
Notation "'when' c 'then' m" := (if c then m else ret tt)
  (at level 60, c at level 9) : py_scope.
Open Scope py_scope.

Definition run {A : Type} (m : M A) : result A * list event := m [].

(** ** numpy arrays *)

(** An array is its shape and its elements in row-major order.  Elements are
    exact rationals: integer labels are the rationals of denominator one and
    the order and equality tests the checks make are those of the numbers. *)
Record ndarray : Type := mkArr { shape : list nat; data : list Q }.

Definition ndim (a : ndarray) : nat := List.length (shape a).

(** [len(a)]: the first axis; a 0-d array (and a numpy scalar) has no len. *)
Definition np_len (a : ndarray) : result Z :=
  match shape a with
  | [] => raise TypeError [Lit "len() of unsized object"]
  | n :: _ => Returned (Z.of_nat n)
  end.

(** [a.flatten()] *)
Definition flatten (a : ndarray) : ndarray :=
  mkArr [fold_right Nat.mul 1%nat (shape a)] (data a).

(** Plain Python data: numbers and (nested) lists of them.  Strings, None
    and other objects as list items are outside the embedding. *)
Inductive pyval : Type :=
| PNum (q : Q)
| PList (l : list pyval).

Fixpoint list_eqb {A : Type} (eqb : A -> A -> bool) (l1 l2 : list A) : bool :=
  match l1, l2 with
  | [], [] => true
  | x :: t1, y :: t2 => eqb x y && list_eqb eqb t1 t2
  | _, _ => false
  end.

Definition inhomogeneous : list fragment :=
  [Lit "setting an array element with a sequence. The requested array has an inhomogeneous shape."].

(** Stacks the arrays built from the items of a list: they must all have
    the shape of the first one. *)
Fixpoint stack (items : list (result ndarray)) : result (list nat * list Q) :=
  match items with
  | [] => Returned ([], [])
  | Raised e :: _ => Raised e
  | Returned a :: rest =>
      match rest with
      | [] => Returned (shape a, data a)
      | _ :: _ =>
          match stack rest with
          | Raised e => Raised e
          | Returned (s, d) =>
              if list_eqb Nat.eqb (shape a) s
              then Returned (s, (data a ++ d)%list)
              else raise ValueError inhomogeneous
          end
      end
  end.

(** [np.asarray(v)] on plain data: a number gives a 0-d array, a list of
    equally shaped items gives an array with one more axis, and ragged
    nesting raises (NumPy 1.24 and later). *)
Fixpoint np_asarray (v : pyval) : result ndarray :=
  match v with
  | PNum q => Returned (mkArr [] [q])
  | PList l =>
      match stack (map np_asarray l) with
      | Raised e => Raised e
      | Returned (s, d) =>
          Returned (mkArr (List.length l :: match l with [] => [] | _ :: _ => s end) d)
      end
  end.

(** [np.unique]: the sorted distinct elements. *)
Fixpoint insert_unique (x : Q) (l : list Q) : list Q :=
  match l with
  | [] => [x]
  | h :: t =>
      match (x ?= h)%Q with
      | Lt => x :: l
      | Eq => l
      | Gt => h :: insert_unique x t
      end
  end.

Definition np_unique (l : list Q) : list Q := fold_right insert_unique [] l.

(** [np.arange(n)] *)
Definition np_arange (n : nat) : list Q := map (fun i => inject_Z (Z.of_nat i)) (seq 0 n).

(** [(u != v).any()] for two arrays of one length. *)
Definition ne_any (u v : list Q) : bool :=
  existsb (fun p => negb (Qeq_bool (fst p) (snd p))) (combine u v).

(** [x < y] on numbers. *)
Definition Qltb (x y : Q) : bool := negb (Qle_bool y x).

(** [np.min], [np.max]: no identity on an empty array. *)
Definition zero_size (op : string) : list fragment :=
  [Lit "zero-size array to reduction operation "; Lit op; Lit " which has no identity"].

Definition np_min (a : ndarray) : result Q :=
  match data a with
  | [] => raise ValueError (zero_size "minimum")
  | x :: t => Returned (fold_left Qmin t x)
  end.

Definition np_max (a : ndarray) : result Q :=
  match data a with
  | [] => raise ValueError (zero_size "maximum")
  | x :: t => Returned (fold_left Qmax t x)
  end.

(** [a.shape[i]] *)
Definition shape_at (a : ndarray) (i : nat) : result Z :=
  match nth_error (shape a) i with
  | Some n => Returned (Z.of_nat n)
  | None => raise IndexError [Lit "tuple index out of range"]
  end.

(** ** The arguments of the checks *)

(** What can be passed as labels [y]. *)
Inductive labels : Type :=
| LList (l : list pyval)                         (* a Python list *)
| LArray (a : ndarray)                           (* np.ndarray; np.generic as a 0-d array *)
| LSeries (vals : list Q)                        (* pd.Series and its values *)
| LDataFrame (nrows ncols : nat) (vals : list Q) (* pd.DataFrame, .values is nrows x ncols *)
| LTuple (l : list pyval)                        (* a tuple: not an accepted container *)
| LNumber (q : Q).                               (* a bare Python number: not accepted *)

(** [isinstance(y, (list, np.ndarray, np.generic, pd.Series, pd.DataFrame))] *)
Definition isinstance_labels (y : labels) : bool :=
  match y with
  | LList _ | LArray _ | LSeries _ | LDataFrame _ _ _ => true
  | LTuple _ | LNumber _ => false
  end.

(** [np.asarray(y)] *)
Definition labels_asarray (y : labels) : result ndarray :=
  match y with
  | LList l | LTuple l => np_asarray (PList l)
  | LArray a => Returned a
  | LSeries vals => Returned (mkArr [List.length vals] vals)
  | LDataFrame r c vals => Returned (mkArr [r; c] vals)
  | LNumber q => np_asarray (PNum q)
  end.

(** [len(y)] *)
Definition labels_len (y : labels) : result Z :=
  match y with
  | LList l | LTuple l => Returned (Z.of_nat (List.length l))
  | LArray a => np_len a
  | LSeries vals => Returned (Z.of_nat (List.length vals))
  | LDataFrame r _ _ => Returned (Z.of_nat r)
  | LNumber _ => raise TypeError [Lit "object has no len()"]
  end.

(** What can be passed as [pred_probs] (when it is not None). *)
Inductive probs : Type :=
| PArray (a : ndarray)       (* np.ndarray or np.generic *)
| PNotArray (v : pyval).     (* e.g. a list of lists *)

(** The classes of [X] that the checks tell apart. *)
Inductive pyclass : Type :=
| ClsNone
| ClsList
| ClsNdarray
| ClsSeries
| ClsDataFrame
| ClsTorchDataset
| ClsTfDataset
| ClsOther.

(** The dataset [X] is opaque to the checks: they see its class and what
    its size and indexing operations answer. *)
Record dataset : Type := mkDataset {
  cls : pyclass;
  x_len : result Z;                        (* len(X) *)
  x_shape0 : result Z;                     (* X.shape[0] *)
  x_iloc : list Z -> result unit;          (* X.iloc[idx] *)
  x_getitem : list Z -> result unit        (* X[idx] *)
}.

Definition no_attribute {A : Type} (name : string) : result A :=
  raise AttributeError [Lit "object has no attribute "; Lit name].

(** [None] *)
Definition X_None : dataset :=
  mkDataset ClsNone
    (raise TypeError [Lit "object of type 'NoneType' has no len()"])
    (no_attribute "shape")
    (fun _ => no_attribute "iloc")
    (fun _ => raise TypeError [Lit "'NoneType' object is not subscriptable"]).

(** A Python list: it has a length and can be indexed by an integer or a
    slice, not by a list. *)
Definition X_list (l : list pyval) : dataset :=
  mkDataset ClsList
    (Returned (Z.of_nat (List.length l)))
    (no_attribute "shape")
    (fun _ => no_attribute "iloc")
    (fun _ => raise TypeError [Lit "list indices must be integers or slices, not list"]).

(** A numpy array: indexing by a list takes the rows at these positions
    of the first axis, each in [-n, n). *)
Definition X_ndarray (a : ndarray) : dataset :=
  mkDataset ClsNdarray
    (np_len a)
    (shape_at a 0)
    (fun _ => no_attribute "iloc")
    (fun idx =>
       match shape a with
       | [] => raise IndexError [Lit "too many indices for array"]
       | n :: _ =>
           if forallb (fun i => (- Z.of_nat n <=? i) && (i <? Z.of_nat n)) idx
           then Returned tt
           else raise IndexError [Lit "index is out of bounds for axis 0"]
       end).

(** A scipy sparse matrix of [n] rows: [len] is refused, the shape and
    row indexing by a list work. *)
Definition X_sparse (n : nat) : dataset :=
  mkDataset ClsOther
    (raise TypeError [Lit "sparse matrix length is ambiguous; use getnnz() or shape[0]"])
    (Returned (Z.of_nat n))
    (fun _ => no_attribute "iloc")
    (fun idx =>
       if forallb (fun i => (- Z.of_nat n <=? i) && (i <? Z.of_nat n)) idx
       then Returned tt
       else raise IndexError [Lit "row index out of bounds"]).

(** A pandas DataFrame of [nrows] rows whose columns are labelled by the
    integers [columns]: [.iloc] takes rows by position, brackets with a list
    take columns by label. *)
Definition X_dataframe (nrows : nat) (columns : list Z) : dataset :=
  mkDataset ClsDataFrame
    (Returned (Z.of_nat nrows))
    (Returned (Z.of_nat nrows))
    (fun idx =>
       if forallb (fun i => (- Z.of_nat nrows <=? i) && (i <? Z.of_nat nrows)) idx
       then Returned tt
       else raise IndexError [Lit "positional indexers are out-of-bounds"])
    (fun idx =>
       if forallb (fun i => existsb (Z.eqb i) columns) idx
       then Returned tt
       else raise KeyError [Lit "not in index"]).

Definition is_None (X : dataset) : bool :=
  match cls X with ClsNone => true | _ => false end.

(** [isinstance(X, (pd.DataFrame, pd.Series))] *)
Definition is_pandas (X : dataset) : bool :=
  match cls X with ClsDataFrame | ClsSeries => true | _ => false end.

(** [isinstance(X, torch.utils.data.Dataset)] *)
Definition is_torch_Dataset (X : dataset) : bool :=
  match cls X with ClsTorchDataset => true | _ => false end.

(** [isinstance(X, tensorflow.data.Dataset)] *)
Definition is_tf_Dataset (X : dataset) : bool :=
  match cls X with ClsTfDataset => true | _ => false end.

(** The queries on [X], each recorded in the log. *)
Definition py_len (X : dataset) : M Z := emit (Probed LenOf) ;; lift (x_len X).
Definition py_shape0 (X : dataset) : M Z := emit (Probed Shape0Of) ;; lift (x_shape0 X).
Definition py_iloc (X : dataset) (idx : list Z) : M unit :=
  emit (Probed (IlocAt idx)) ;; lift (x_iloc X idx).
Definition py_getitem (X : dataset) (idx : list Z) : M unit :=
  emit (Probed (GetitemAt idx)) ;; lift (x_getitem X idx).
(** [torch.utils.data.Subset(X, idx)] only stores its two arguments. *)
Definition torch_Subset (X : dataset) (idx : list Z) : M unit :=
  emit (Probed (SubsetOf idx)).

(** Which of the optional libraries can be imported. *)
Record env : Type := mkEnv { torch_installed : bool; tensorflow_installed : bool }.

(** [import name]: raises ModuleNotFoundError when the library is absent. *)
Definition import (installed : bool) (name : string) : M unit :=
  if installed then ret tt else throw ImportError [Lit "No module named "; Lit name].

(** ** The checks *)

Definition nl : string := String "010"%char EmptyString.

(** [labels_to_array(y)] *)
Definition labels_to_array (y : labels) : result ndarray :=
  match y with
  | LSeries vals =>
      let y_series := mkArr [List.length vals] vals in   (* y.to_numpy() *)
      Returned y_series
  | LDataFrame nrows ncols vals =>
      let y := mkArr [nrows; ncols] vals in              (* y.values *)
      rbind (shape_at y 1) (fun c =>
      if negb (c =? 1)
      then raise ValueError [Lit "labels must be one dimensional."]
      else Returned (flatten y))
  | _ =>
      match labels_asarray y with
      | Returned a => Returned a
      | Raised _ =>
          raise ValueError
            [Lit "List of labels must be convertable to 1D numpy array via: np.ndarray(labels)."]
      end
  end.

(** [assert_valid_class_labels(y, allow_missing_classes)] *)
Definition assert_valid_class_labels (y : ndarray) (allow_missing_classes : bool)
  : result unit :=
  if negb (ndim y =? 1)%nat
  then raise ValueError [Lit "labels must be 1D numpy array."]
  else
    if negb allow_missing_classes then
      let unique_classes := np_unique (data y) in
      if (List.length unique_classes <? 2)%nat
      then raise ValueError [Lit "Labels must contain at least 2 classes."]
      else
        if ne_any unique_classes (np_arange (List.length unique_classes))
        then raise TypeError
               [Lit "cleanlab requires zero-indexed integer labels (0,1,2,..,K-1), but in ";
                Lit "your case: np.unique(labels) = "; FmtArr unique_classes; Lit ". ";
                Lit "Every class in (0,1,2,..,K-1) must be present in labels as well."]
        else Returned tt
    else Returned tt.

(** [assert_nonempty_input(X)] *)
Definition assert_nonempty_input (X : dataset) : result unit :=
  if is_None X
  then raise ValueError [Lit "Data features X cannot be None. Currently X is None."]
  else Returned tt.

Definition indexing_msg : string :=
  "Data features X must support list-based indexing; i.e. one of these must work: " ++ nl
  ++ "1)  X[index_list] where say index_list = [0,1,3,10], or " ++ nl
  ++ "2)  X.iloc[index_list] if X is pandas DataFrame.".

(** [assert_indexing_works(X, idx, length_X)] *)
Definition assert_indexing_works (E : env) (X : dataset)
    (idx : option (list Z)) (length_X : option Z) : M unit :=
  let idx :=
    match idx with
    | None =>
        let length_X := match length_X with None => 2 | Some n => n end in
        [0; length_X - 1]
    | Some idx => idx
    end in
  let is_indexed := false in
  is_indexed <-
    try_except
      (if is_pandas X then py_iloc X idx ;; ret true else ret is_indexed)
      Exception (ret is_indexed) ;;
  is_indexed <-
    (if negb is_indexed then
       try_except
         (import (torch_installed E) "torch" ;;
          if is_torch_Dataset X then torch_Subset X idx ;; ret true else ret is_indexed)
         Exception (ret is_indexed)
     else ret is_indexed) ;;
  is_indexed <-
    (if negb is_indexed then
       try_except
         (import (tensorflow_installed E) "tensorflow" ;;
          if is_tf_Dataset X then ret true else ret is_indexed)
         Exception (ret is_indexed)
     else ret is_indexed) ;;
  when (negb is_indexed) then
    try_except (py_getitem X idx) Exception (throw TypeError [Lit indexing_msg]).

Definition both_given : string :=
  "When X and pred_probs are both provided, former may be ignored.".

(** [assert_valid_inputs(X, y, pred_probs, multi_label, allow_missing_classes)].
    [num_examples] and the flag of the query that bound it are one option:
    [len_supported] is [True] exactly when [len(X)] gave [num_examples], and
    likewise for [shape_supported]. *)
Definition assert_valid_inputs (E : env) (X : dataset) (y : labels)
    (pred_probs : option probs) (multi_label allow_missing_classes : bool) : M unit :=
  when (negb (isinstance_labels y)) then
    throw TypeError [Lit "labels should be a numpy array or pandas Series."] ;;
  y <- (if negb multi_label then
          y <- lift (labels_to_array y) ;;
          lift (assert_valid_class_labels y allow_missing_classes) ;;
          ret (LArray y)
        else ret y) ;;
  let allow_empty_X := true in
  let allow_empty_X := match pred_probs with None => false | Some _ => allow_empty_X end in
  allow_empty_X <-
    try_except
      (import (tensorflow_installed E) "tensorflow" ;;
       if is_tf_Dataset X then ret true else ret allow_empty_X)
      Exception (ret allow_empty_X) ;;
  when (negb allow_empty_X) then
    (lift (assert_nonempty_input X) ;;
     by_len <- try_except (n <- py_len X ;; ret (Some n)) any_exn (ret None) ;;
     let len_supported := match by_len with Some _ => true | None => false end in
     by_shape <-
       (if negb len_supported
        then try_except (n <- py_shape0 X ;; ret (Some n)) any_exn (ret None)
        else ret None) ;;
     let shape_supported := match by_shape with Some _ => true | None => false end in
     when (negb len_supported && negb shape_supported) then
       throw TypeError [Lit "Data features X must support either: len(X) or X.shape[0]"] ;;
     let num_examples :=
       match by_len, by_shape with
       | Some n, _ => n
       | None, Some n => n
       | None, None => 0            (* not reached: the check above raised *)
       end in
     len_y <- lift (labels_len y) ;;
     when (negb (num_examples =? len_y)) then
       throw ValueError
         [Lit "X and labels must be same length, but X is length "; FmtInt num_examples;
          Lit " and labels is length "; FmtInt len_y; Lit "."] ;;
     assert_indexing_works E X None (Some num_examples)) ;;
  match pred_probs with
  | None => ret tt
  | Some pred_probs =>
      match pred_probs with
      | PNotArray _ => throw TypeError [Lit "pred_probs must be a numpy array."]
      | PArray pred_probs =>
          len_p <- lift (np_len pred_probs) ;;
          len_y <- lift (labels_len y) ;;
          when (negb (len_p =? len_y)) then
            throw ValueError [Lit "pred_probs and labels must have same length."] ;;
          when (negb (List.length (shape pred_probs) =? 2)%nat) then
            throw ValueError [Lit "pred_probs array must have shape: num_examples x num_classes."] ;;
          lo <- lift (np_min pred_probs) ;;
          out_of_range <-
            (if Qltb lo 0 then ret true
             else hi <- lift (np_max pred_probs) ;;
                  ret (Qltb 1 hi)) ;;
          when out_of_range then
            throw ValueError [Lit "Values in pred_probs must be between 0 and 1."] ;;
          when (negb (is_None X)) then emit (Warned both_given) ;;
          when (negb allow_missing_classes && negb multi_label) then
            (y_arr <- lift (labels_asarray y) ;;
             let num_unique_labels := Z.of_nat (List.length (np_unique (data y_arr))) in
             k <- lift (shape_at pred_probs 1) ;;
             when (negb (num_unique_labels =? k)) then
               throw ValueError
                 [Lit "All classes in (0,1,2,...,K-1) must be present in labels ";
                  Lit "with K = pred_probs.shape[1] = "; FmtInt k; Lit " in your case, ";
                  Lit "but your labels only contain "; FmtInt num_unique_labels;
                  Lit " unique values."])
      end
  end.

(** * The vocabulary of the statements *)

Section ValueSets.

Local Open Scope Q_scope.

(** [q] is, as a number, one of the values of [l]. *)
Definition QIn (q : Q) (l : list Q) : Prop := InA Qeq q l.

(** The class [i] as an array element. *)
Definition qnat (i : nat) : Q := inject_Z (Z.of_nat i).

(** The distinct values of [l] are exactly the classes [0, 1, ..., K-1]. *)
Definition classes_are (l : list Q) (K : nat) : Prop :=
  forall q, QIn q l <-> exists i, (i < K)%nat /\ q == qnat i.

(** [l] holds at most one distinct value. *)
Definition single_valued (l : list Q) : Prop :=
  forall a b, In a l -> In b l -> a == b.

(** [l] holds two values that differ. *)
Definition two_valued (l : list Q) : Prop :=
  exists a b, In a l /\ In b l /\ ~ a == b.

(** [r] is an exception of class [c]. *)
Definition raises_kind {A : Type} (r : result A) (c : exn_class) : Prop :=
  exists msg, r = raise c msg.

(** The message of the TypeError of [assert_valid_class_labels]. *)
Definition zero_indexed_msg (unique_classes : list Q) : list fragment :=
  [Lit "cleanlab requires zero-indexed integer labels (0,1,2,..,K-1), but in ";
   Lit "your case: np.unique(labels) = "; FmtArr unique_classes; Lit ". ";
   Lit "Every class in (0,1,2,..,K-1) must be present in labels as well."].

(** The inputs of the worked examples. *)
Definition features_2x2 : dataset :=
  X_list [PList [PNum 1; PNum 2]; PList [PNum 3; PNum 4]].
Definition features_1x2 : dataset := X_list [PList [PNum 1; PNum 2]].
Definition labels_01 : labels := LList [PNum 0; PNum 1].
Definition probs_2x2 : probs := PArray (mkArr [2%nat; 2%nat] [9#10; 1#10; 2#10; 8#10]).
Definition probs_half : probs := PArray (mkArr [2%nat; 2%nat] [1#2; 1#2; 1#2; 1#2]).
Definition nested_labels : labels :=
  LList [PList [PNum 1; PNum 2]; PList [PNum 3; PNum 4]].
Definition labels_0012 : ndarray := mkArr [4%nat] [0; 0; 1; 2].
Definition labels_201 : ndarray := mkArr [3%nat] [2; 0; 1].
Definition labels_0 : ndarray := mkArr [1%nat] [0].
Definition labels_123 : ndarray := mkArr [3%nat] [1; 2; 3].
Definition all_installed : env := mkEnv true true.

(** An object that answers [obj[[i, j]]] and nothing else. *)
Definition only_brackets : dataset :=
  mkDataset ClsOther
    (raise TypeError [Lit "object has no len()"])
    (no_attribute "shape")
    (fun _ => no_attribute "iloc")
    (fun _ => Returned tt).

End ValueSets.

Section Runs.

(** The positions the check samples: [idx] when given, else the first and
    the last of [length_X] (of 2 when that is not given either). *)
Definition sampled (idx : option (list Z)) (length_X : option Z) : list Z :=
  match idx, length_X with
  | Some idx, _ => idx
  | None, Some n => [0; n - 1]
  | None, None => [0; 1]
  end.

(** An attempt fails when it raises an [Exception]. *)
Definition fails {A : Type} (r : result A) : Prop :=
  exists e, r = Raised e /\ Exception e = true.

(** The four protocols, each not applicable to [X] or failing on it. *)
Definition iloc_fails (X : dataset) (ix : list Z) : Prop :=
  is_pandas X = false \/ fails (x_iloc X ix).
Definition torch_fails (E : env) (X : dataset) : Prop :=
  torch_installed E = false \/ is_torch_Dataset X = false.
Definition tf_fails (E : env) (X : dataset) : Prop :=
  tensorflow_installed E = false \/ is_tf_Dataset X = false.
Definition getitem_fails (X : dataset) (ix : list Z) : Prop :=
  fails (x_getitem X ix).

(** [X.iloc[ix]], when [X] is a pandas container, raises nothing that an
    [except Exception] lets through. *)
Definition iloc_catchable (X : dataset) (ix : list Z) : Prop :=
  forall e, is_pandas X = true -> x_iloc X ix = Raised e -> Exception e = true.

(** The label stage of [assert_valid_inputs] passes and leaves [y'] bound
    to [y]: the array of [labels_to_array], or [y] itself when multi-label. *)
Definition labels_accepted (y : labels) (multi_label allow_missing_classes : bool)
    (y' : labels) : Prop :=
  isinstance_labels y = true /\
  if multi_label then y' = y
  else exists a, labels_to_array y = Returned a /\
                 assert_valid_class_labels a allow_missing_classes = Returned tt /\
                 y' = LArray a.

(** [X] is a tensorflow Dataset that the running interpreter recognises. *)
Definition recognised_tf (E : env) (X : dataset) : bool :=
  tensorflow_installed E && is_tf_Dataset X.

(** The example count the size queries give: [len(X)], else [X.shape[0]]. *)
Definition example_count (X : dataset) : option Z :=
  match x_len X with
  | Returned n => Some n
  | Raised _ => match x_shape0 X with Returned n => Some n | Raised _ => None end
  end.

(** The queries made to find the example count. *)
Definition size_probes (X : dataset) : list event :=
  match x_len X with
  | Returned _ => [Probed LenOf]
  | Raised _ => [Probed LenOf; Probed Shape0Of]
  end.

(** The message of the length-mismatch ValueError. *)
Definition mismatch_msg (num_examples len_y : Z) : list fragment :=
  [Lit "X and labels must be same length, but X is length "; FmtInt num_examples;
   Lit " and labels is length "; FmtInt len_y; Lit "."].

(** [sub] occurs in [s]. *)
Definition mentions (sub s : string) : bool :=
  match index 0 sub s with Some _ => true | None => false end.

(** The event is an indexing attempt on [X]. *)
Definition indexing_probe (ev : event) : bool :=
  match ev with
  | Probed (IlocAt _) | Probed (SubsetOf _) | Probed (GetitemAt _) => true
  | _ => false
  end.

(** A DataFrame of 2 rows and 6 columns labelled 0..5. *)
Definition frame_2x6 : dataset := X_dataframe 2 [0; 1; 2; 3; 4; 5]%Z.

End Runs.

Section Stages.

Local Open Scope Q_scope.

(** A probability. *)
Definition in_unit_interval (q : Q) : Prop := 0 <= q /\ q <= 1.


(** The part of [assert_valid_inputs] that follows the checks on [X]: what
    it does with [pred_probs] once [y] is bound to the checked labels.  It
    serves to state how a run decomposes. *)
Definition probs_checks (X : dataset) (y : labels) (pred_probs : probs)
    (multi_label allow_missing_classes : bool) : M unit :=
  match pred_probs with
  | PNotArray _ => throw TypeError [Lit "pred_probs must be a numpy array."]
  | PArray pred_probs =>
      len_p <- lift (np_len pred_probs) ;;
      len_y <- lift (labels_len y) ;;
      when (negb (len_p =? len_y)%Z) then
        throw ValueError [Lit "pred_probs and labels must have same length."] ;;
      when (negb (List.length (shape pred_probs) =? 2)%nat) then
        throw ValueError [Lit "pred_probs array must have shape: num_examples x num_classes."] ;;
      lo <- lift (np_min pred_probs) ;;
      out_of_range <-
        (if Qltb lo 0 then ret true
         else hi <- lift (np_max pred_probs) ;;
              ret (Qltb 1 hi)) ;;
      when out_of_range then
        throw ValueError [Lit "Values in pred_probs must be between 0 and 1."] ;;
      when (negb (is_None X)) then emit (Warned both_given) ;;
      when (negb allow_missing_classes && negb multi_label) then
        (y_arr <- lift (labels_asarray y) ;;
         let num_unique_labels := Z.of_nat (List.length (np_unique (data y_arr))) in
         k <- lift (shape_at pred_probs 1) ;;
         when (negb (num_unique_labels =? k)%Z) then
           throw ValueError
             [Lit "All classes in (0,1,2,...,K-1) must be present in labels ";
              Lit "with K = pred_probs.shape[1] = "; FmtInt k; Lit " in your case, ";
              Lit "but your labels only contain "; FmtInt num_unique_labels;
              Lit " unique values."])
  end.

(** The message of the class-count ValueError. *)
Definition class_count_msg (k num_unique_labels : Z) : list fragment :=
  [Lit "All classes in (0,1,2,...,K-1) must be present in labels ";
   Lit "with K = pred_probs.shape[1] = "; FmtInt k; Lit " in your case, ";
   Lit "but your labels only contain "; FmtInt num_unique_labels;
   Lit " unique values."].

(** The warning a run with [pred_probs] logs: none when [X] is None. *)
Definition warning_for (X : dataset) : list event :=
  if is_None X then [] else [Warned both_given].

(** A torch Dataset, a tensorflow Dataset: their size and subscript
    operations are never consulted by the checks once they are recognised,
    so they are left to fail here. *)
Definition X_torch (n : nat) : dataset :=
  mkDataset ClsTorchDataset
    (Returned (Z.of_nat n))
    (no_attribute "shape")
    (fun _ => no_attribute "iloc")
    (fun _ => raise TypeError [Lit "list indices must be integers or slices, not list"]).

Definition X_tf : dataset :=
  mkDataset ClsTfDataset
    (raise TypeError [Lit "The dataset length is unknown."])
    (no_attribute "shape")
    (fun _ => no_attribute "iloc")
    (fun _ => raise TypeError [Lit "'Dataset' object is not subscriptable"]).

(** One of the four protocols applies to [X] and succeeds at [ix]. *)
Definition protocol_succeeds (E : env) (X : dataset) (ix : list Z) : Prop :=
  (is_pandas X = true /\ x_iloc X ix = Returned tt) \/
  (torch_installed E = true /\ is_torch_Dataset X = true) \/
  (tensorflow_installed E = true /\ is_tf_Dataset X = true) \/
  x_getitem X ix = Returned tt.

(** More inputs of worked examples: no labels at all, a ragged list, a
    two-column frame of labels, and probabilities with one out of range. *)
Definition no_labels : labels := LArray (mkArr [0%nat] []).
Definition ragged_labels : labels := LList [PList [PNum 0]; PList [PNum 1; PNum 2]].
Definition frame_labels : labels := LDataFrame 2 2 [0; 1; 1; 0].
Definition array_01 : ndarray := mkArr [2%nat] [0; 1].
Definition probs_2x3 : ndarray := mkArr [2%nat; 3%nat] [1#2; 1#2; 0; 1#2; 1#2; 0].
Definition probs_empty : ndarray := mkArr [0%nat; 2%nat] [].
Definition interrupted_frame : dataset :=
  mkDataset ClsDataFrame (Returned 2%Z) (Returned 2%Z)
    (fun _ => raise KeyboardInterrupt []) (fun _ => Returned tt).

End Stages.

(** * Properties *)

(** ** [np.asarray] on plain lists *)

Example asarray_flat : np_asarray (PList [PNum 0; PNum 1]) = Returned (mkArr [2%nat] [0%Q; 1%Q]).
Proof. reflexivity. Qed.

Example asarray_empty : np_asarray (PList []) = Returned (mkArr [0%nat] []).
Proof. reflexivity. Qed.

Example asarray_ragged :
  np_asarray (PList [PList [PNum 0]; PList [PNum 1; PNum 2]]) = raise ValueError inhomogeneous.
Proof. reflexivity. Qed.

(** ** [np_unique] is sorted, without repeats, and keeps the values *)

Section Unique.

Local Open Scope Q_scope.

Lemma QIn_In (q : Q) (l : list Q) : In q l -> QIn q l.
Proof.
  intros H. apply InA_alt. exists q. split; [reflexivity | exact H].
Qed.

Lemma insert_unique_QIn (x q : Q) (l : list Q) :
  QIn q (insert_unique x l) <-> q == x \/ QIn q l.
Proof.
  unfold QIn. induction l as [|h t IH]; simpl.
  - split; intros H.
    + inversion H; subst; auto.
    + destruct H as [H|H]; [now constructor | inversion H].
  - destruct (x ?= h) eqn:C.
    + apply Qeq_alt in C. split; intros H; auto.
      destruct H as [H|H]; auto. constructor. now rewrite H.
    + split; intros H.
      * inversion H; subst; auto.
      * destruct H as [H|H]; [now constructor | now constructor 2].
    + split; intros H.
      * inversion H; subst.
        -- right. now constructor.
        -- apply IH in H1. destruct H1 as [H1|H1]; [now left | right; now constructor 2].
      * destruct H as [H|H].
        -- constructor 2. apply IH. now left.
        -- inversion H; subst; [now constructor|].
           constructor 2. apply IH. now right.
Qed.

Lemma np_unique_QIn (q : Q) (l : list Q) : QIn q (np_unique l) <-> QIn q l.
Proof.
  induction l as [|h t IH]; simpl.
  - reflexivity.
  - rewrite insert_unique_QIn, IH. unfold QIn. split; intros H.
    + destruct H; [now constructor | now constructor 2].
    + inversion H; subst; auto.
Qed.

Lemma insert_unique_lower (x b : Q) (l : list Q) :
  b < x -> Forall (Qlt b) l -> Forall (Qlt b) (insert_unique x l).
Proof.
  intros Hb Hl. induction Hl as [|h t Hh Ht IH]; simpl.
  - auto.
  - destruct (x ?= h); auto.
Qed.

Lemma insert_unique_sorted (x : Q) (l : list Q) :
  StronglySorted Qlt l -> StronglySorted Qlt (insert_unique x l).
Proof.
  induction 1 as [|h t Hs IH Hh]; simpl.
  - repeat constructor.
  - destruct (x ?= h) eqn:C.
    + now constructor.
    + apply Qlt_alt in C. constructor; [now constructor|].
      constructor; [exact C|].
      eapply Forall_impl; [|exact Hh]. intros a Ha. now apply Qlt_trans with h.
    + apply Qgt_alt in C. constructor; [exact IH|].
      now apply insert_unique_lower.
Qed.

Lemma np_unique_sorted (l : list Q) : StronglySorted Qlt (np_unique l).
Proof.
  induction l as [|h t IH]; simpl.
  - constructor.
  - now apply insert_unique_sorted.
Qed.

Lemma Forall_QIn (P : Q -> Prop) (l : list Q) (q : Q) :
  (forall a b, a == b -> P a -> P b) -> Forall P l -> QIn q l -> P q.
Proof.
  intros HP Hl Hq. apply InA_alt in Hq. destruct Hq as [x [Hx Hin]].
  rewrite Forall_forall in Hl. apply HP with x; [now symmetry | auto].
Qed.

Lemma qnat_lt (i j : nat) : qnat i < qnat j <-> (i < j)%nat.
Proof.
  unfold qnat. rewrite <- Zlt_Qlt. lia.
Qed.

Lemma qnat_eq (i j : nat) : qnat i == qnat j <-> i = j.
Proof.
  unfold qnat. split; intros H.
  - rewrite inject_Z_injective in H. now apply Nat2Z.inj.
  - now subst.
Qed.

(** A strictly increasing list whose values are the integers of
    [a .. a+K-1] is that range, element by element. *)
Lemma sorted_range (K : nat) : forall (a : nat) (u : list Q),
  StronglySorted Qlt u ->
  (forall q, QIn q u <-> exists i, (a <= i < a + K)%nat /\ q == qnat i) ->
  Forall2 Qeq u (map qnat (seq a K)).
Proof.
  induction K as [|K IH]; intros a u Hs Hset.
  - destruct u as [|h t]; [constructor|].
    destruct (proj1 (Hset h)) as [i [Hi _]]; [now constructor | lia].
  - destruct u as [|h t].
    + assert (H : QIn (qnat a) []).
      { apply Hset. exists a. split; [lia | reflexivity]. }
      inversion H.
    + inversion Hs as [|? ? Hst Hht]; subst. simpl.
      assert (Hha : h == qnat a).
      { destruct (proj1 (Hset h)) as [i [Hi Ei]]; [now constructor|].
        assert (Ha : QIn (qnat a) (h :: t)).
        { apply Hset. exists a. split; [lia | reflexivity]. }
        inversion Ha as [? ? E|? ? Hin]; subst; [now symmetry|].
        assert (h < qnat a).
        { eapply Forall_QIn; [| exact Hht | exact Hin].
          intros x y Exy Hx. now rewrite <- Exy. }
        rewrite Ei in H. apply qnat_lt in H. lia. }
      constructor; [exact Hha|].
      apply IH; [exact Hst|].
      intros q. split.
      * intros Hq.
        assert (Hlt : h < q).
        { eapply Forall_QIn; [| exact Hht | exact Hq].
          intros x y Exy Hx. now rewrite <- Exy. }
        destruct (proj1 (Hset q)) as [i [Hi Ei]]; [now constructor 2|].
        exists i. split; [|exact Ei].
        rewrite Hha, Ei in Hlt. apply qnat_lt in Hlt. lia.
      * intros [i [Hi Ei]].
        assert (Hq : QIn q (h :: t)).
        { apply Hset. exists i. split; [lia | exact Ei]. }
        inversion Hq as [? ? E|? ? Hin]; subst; [|exact Hin].
        rewrite Ei, Hha in E. apply qnat_eq in E. lia.
Qed.

Lemma Forall2_Qeq_ne_any (u v : list Q) : Forall2 Qeq u v -> ne_any u v = false.
Proof.
  unfold ne_any. induction 1 as [|x y u v E _ IH]; simpl.
  - reflexivity.
  - rewrite IH. apply Qeq_bool_iff in E. now rewrite E.
Qed.

Lemma ne_any_Forall2 (u v : list Q) :
  List.length u = List.length v -> ne_any u v = false -> Forall2 Qeq u v.
Proof.
  unfold ne_any. revert v. induction u as [|x u IH]; intros [|y v] Hl H; simpl in *;
    try discriminate; constructor.
  - apply orb_false_elim in H. destruct H as [H _].
    apply negb_false_iff in H. now apply Qeq_bool_iff.
  - apply IH; [lia|]. apply orb_false_elim in H. tauto.
Qed.

Lemma Forall2_Qeq_QIn (u v : list Q) (q : Q) :
  Forall2 Qeq u v -> QIn q u <-> QIn q v.
Proof.
  unfold QIn. induction 1 as [|x y u v E _ IH].
  - reflexivity.
  - split; intros H; inversion H; subst.
    + constructor. now rewrite <- E.
    + constructor 2. now apply IH.
    + constructor. now rewrite E.
    + constructor 2. now apply IH.
Qed.

Lemma QIn_range (a K : nat) (q : Q) :
  QIn q (map qnat (seq a K)) <-> exists i, (a <= i < a + K)%nat /\ q == qnat i.
Proof.
  unfold QIn. rewrite InA_alt. split.
  - intros [x [E Hin]]. apply in_map_iff in Hin. destruct Hin as [i [Hx Hi]].
    apply in_seq in Hi. exists i. split; [lia | now rewrite E, Hx].
  - intros [i [Hi E]]. exists (qnat i). split; [exact E|].
    apply in_map. apply in_seq. lia.
Qed.

End Unique.

(** ** What the class-label check decides *)

Section ClassLabels.

Local Open Scope Q_scope.

Lemma np_arange_qnat (K : nat) : np_arange K = map qnat (seq 0 K).
Proof. reflexivity. Qed.

Lemma Forall2_length_eq {A B : Type} (R : A -> B -> Prop) (u : list A) (v : list B) :
  Forall2 R u v -> List.length u = List.length v.
Proof.
  induction 1; simpl; congruence.
Qed.

Lemma classes_are_unique (l : list Q) (K : nat) :
  classes_are l K -> Forall2 Qeq (np_unique l) (np_arange K).
Proof.
  intros H. rewrite np_arange_qnat. apply sorted_range.
  - apply np_unique_sorted.
  - intros q. rewrite np_unique_QIn, (H q). split; intros [i [Hi E]]; exists i; split; auto; lia.
Qed.

Lemma classes_are_count (l : list Q) (K : nat) :
  classes_are l K -> List.length (np_unique l) = K.
Proof.
  intros H. apply classes_are_unique in H. apply Forall2_length_eq in H.
  rewrite H. unfold np_arange. now rewrite length_map, length_seq.
Qed.

Lemma unique_arange_classes (l : list Q) :
  ne_any (np_unique l) (np_arange (List.length (np_unique l))) = false ->
  classes_are l (List.length (np_unique l)).
Proof.
  intros H q. apply ne_any_Forall2 in H.
  - rewrite <- np_unique_QIn, (Forall2_Qeq_QIn _ _ q H), np_arange_qnat, QIn_range.
    split; intros [i [Hi E]]; exists i; split; auto; lia.
  - unfold np_arange. now rewrite length_map, length_seq.
Qed.

Lemma QIn_witness (q : Q) (l : list Q) : QIn q l -> exists x, In x l /\ x == q.
Proof.
  intros H. apply InA_alt in H. destruct H as [x [E Hin]]. exists x. split; [exact Hin | now symmetry].
Qed.

Lemma single_valued_count (l : list Q) :
  single_valued l <-> (List.length (np_unique l) < 2)%nat.
Proof.
  split.
  - intros H. pose proof (np_unique_sorted l) as Hs.
    destruct (np_unique l) as [|x [|y t]] eqn:Eu; simpl; try lia.
    exfalso.
    assert (Hx : QIn x l) by (apply np_unique_QIn; rewrite Eu; now constructor).
    assert (Hy : QIn y l) by (apply np_unique_QIn; rewrite Eu; constructor 2; now constructor).
    apply QIn_witness in Hx. destruct Hx as [a [Ha Ea]].
    apply QIn_witness in Hy. destruct Hy as [b [Hb Eb]].
    inversion Hs as [|? ? _ Hall]; subst. inversion Hall as [|? ? Hxy _]; subst.
    pose proof (H a b Ha Hb) as E. rewrite Ea, Eb in E. rewrite E in Hxy.
    now apply Qlt_irrefl in Hxy.
  - intros H a b Ha Hb.
    apply QIn_In in Ha. apply QIn_In in Hb.
    apply np_unique_QIn in Ha. apply np_unique_QIn in Hb.
    destruct (np_unique l) as [|x [|y t]]; simpl in H; try lia.
    + inversion Ha.
    + inversion Ha as [? ? E1|? ? F]; subst; [|inversion F].
      inversion Hb as [? ? E2|? ? F]; subst; [|inversion F].
      now rewrite E1, E2.
Qed.

Lemma two_valued_count (l : list Q) :
  two_valued l -> (List.length (np_unique l) <? 2)%nat = false.
Proof.
  intros [a [b [Ha [Hb Hab]]]]. apply Nat.ltb_ge.
  destruct (Nat.lt_ge_cases (List.length (np_unique l)) 2) as [H|H]; [|exact H].
  apply single_valued_count in H. exfalso. apply Hab. now apply H.
Qed.

(** The three outcomes of the completeness check on a 1D array. *)
Lemma labels_complete (y : ndarray) (K : nat) :
  ndim y = 1%nat -> (2 <= K)%nat -> classes_are (data y) K ->
  assert_valid_class_labels y false = Returned tt.
Proof.
  intros Hd HK Hc. unfold assert_valid_class_labels. rewrite Hd. simpl.
  rewrite (classes_are_count _ _ Hc).
  destruct (Nat.ltb_spec K 2) as [F|_]; [lia|].
  now rewrite (Forall2_Qeq_ne_any _ _ (classes_are_unique _ _ Hc)).
Qed.

Lemma labels_too_few (y : ndarray) :
  ndim y = 1%nat -> single_valued (data y) ->
  assert_valid_class_labels y false
  = raise ValueError [Lit "Labels must contain at least 2 classes."].
Proof.
  intros Hd Hs. unfold assert_valid_class_labels. rewrite Hd. simpl.
  apply single_valued_count in Hs. apply Nat.ltb_lt in Hs. now rewrite Hs.
Qed.

Lemma labels_gap (y : ndarray) :
  ndim y = 1%nat -> two_valued (data y) -> (forall K, ~ classes_are (data y) K) ->
  assert_valid_class_labels y false
  = raise TypeError (zero_indexed_msg (np_unique (data y))).
Proof.
  intros Hd H2 Hn. unfold assert_valid_class_labels. rewrite Hd. simpl.
  rewrite (two_valued_count _ H2).
  destruct (ne_any _ _) eqn:Hne; [reflexivity|].
  exfalso. apply (Hn _ (unique_arange_classes _ Hne)).
Qed.

Lemma labels_relaxed (y : ndarray) :
  ndim y = 1%nat -> assert_valid_class_labels y true = Returned tt.
Proof.
  intros Hd. unfold assert_valid_class_labels. now rewrite Hd.
Qed.

End ClassLabels.

(** ** The indexing check *)

(** Unfolds the monad so that a check runs on the log. *)
Ltac run_checks :=
  unfold try_except, bind, ret, lift, throw, emit, import, py_iloc, py_getitem,
    py_len, py_shape0, torch_Subset; simpl.

(** Decides the tests and the calls a run depends on, outermost first. *)
Ltac split_cases :=
  repeat match goal with
         | |- context [if ?c then _ else _] => destruct c; simpl
         | |- context [match ?x with Returned _ => _ | Raised _ => _ end] => destruct x; simpl
         | |- context [match ?x with PArray _ => _ | PNotArray _ => _ end] => destruct x; simpl
         end.

Section Indexing.

Lemma indexing_by_getitem (E : env) (X : dataset) (idx : option (list Z))
    (length_X : option Z) (log : list event) :
  x_getitem X (sampled idx length_X) = Returned tt ->
  iloc_catchable X (sampled idx length_X) ->
  fst (assert_indexing_works E X idx length_X log) = Returned tt.
Proof.
  intros Hg Hi. unfold assert_indexing_works.
  assert (Eix : match idx with
                | Some idx => idx
                | None => [0; match length_X with Some n => n | None => 2 end - 1]
                end = sampled idx length_X)
    by (destruct idx, length_X; reflexivity).
  rewrite Eix. clear Eix. set (ix := sampled idx length_X) in *.
  unfold iloc_catchable in Hi. run_checks.
  destruct (is_pandas X) eqn:Hp; simpl.
  - destruct (x_iloc X ix) as [[]|e] eqn:Hc; simpl; [reflexivity|].
    rewrite (Hi e eq_refl eq_refl). simpl.
    destruct (torch_installed E), (is_torch_Dataset X), (tensorflow_installed E),
      (is_tf_Dataset X); simpl; try reflexivity; now rewrite Hg.
  - destruct (torch_installed E), (is_torch_Dataset X), (tensorflow_installed E),
      (is_tf_Dataset X); simpl; try reflexivity; now rewrite Hg.
Qed.

Lemma indexing_all_fail (E : env) (X : dataset) (idx : option (list Z))
    (length_X : option Z) (log : list event) :
  iloc_fails X (sampled idx length_X) -> torch_fails E X -> tf_fails E X ->
  getitem_fails X (sampled idx length_X) ->
  fst (assert_indexing_works E X idx length_X log) = raise TypeError [Lit indexing_msg].
Proof.
  intros Hi Ht Hf [e [Hg He]]. unfold assert_indexing_works.
  assert (Eix : match idx with
                | Some idx => idx
                | None => [0; match length_X with Some n => n | None => 2 end - 1]
                end = sampled idx length_X)
    by (destruct idx, length_X; reflexivity).
  rewrite Eix. clear Eix. set (ix := sampled idx length_X) in *.
  assert (Hi' : fst (try_except
                  (if is_pandas X then py_iloc X ix ;; ret true else ret false)
                  Exception (ret false) log) = Returned false).
  { run_checks. destruct Hi as [Hp|[e' [Hc He']]].
    - now rewrite Hp.
    - destruct (is_pandas X); [|reflexivity]. simpl. rewrite Hc. simpl. now rewrite He'. }
  unfold bind at 1.
  destruct (try_except _ Exception (ret false) log) as [r log1]. simpl in Hi'. subst r.
  simpl. run_checks.
  destruct Ht as [Ht|Ht], Hf as [Hf|Hf]; rewrite Ht, Hf; simpl;
    destruct (torch_installed E), (is_torch_Dataset X), (tensorflow_installed E),
      (is_tf_Dataset X); simpl; try discriminate; rewrite Hg; simpl; now rewrite He.
Qed.

End Indexing.

(** ** The orchestrator *)

Section Inputs.

(** With no [pred_probs] and an [X] that is checked, the run is the size
    queries followed by the comparison and the indexing check. *)
Lemma inputs_without_probs (E : env) (X : dataset) (y y' : labels)
    (multi_label allow_missing_classes : bool) (n len_y : Z) (log : list event) :
  labels_accepted y multi_label allow_missing_classes y' ->
  recognised_tf E X = false ->
  is_None X = false ->
  example_count X = Some n ->
  labels_len y' = Returned len_y ->
  assert_valid_inputs E X y None multi_label allow_missing_classes log
  = if n =? len_y
    then assert_indexing_works E X None (Some n) (log ++ size_probes X)
    else (raise ValueError (mismatch_msg n len_y), log ++ size_probes X).
Proof.
  intros [Hi Hy] Htf Hn Hc Hl. unfold assert_valid_inputs.
  rewrite Hi. simpl.
  assert (Hstage :
    (if negb multi_label
     then y0 <- lift (labels_to_array y) ;;
          lift (assert_valid_class_labels y0 allow_missing_classes) ;; ret (LArray y0)
     else ret y) log = (Returned y', log)).
  { destruct multi_label; simpl.
    - now subst.
    - destruct Hy as [a [Ha [Hv Hy]]]. subst y'. run_checks. rewrite Ha. simpl. now rewrite Hv. }
  unfold bind at 1. unfold ret at 1.
  unfold bind at 1. rewrite Hstage.
  unfold bind at 1.
  assert (Hallow :
    try_except
      (import (tensorflow_installed E) "tensorflow" ;;
       (if is_tf_Dataset X then ret true else ret false))
      Exception (ret false) log = (Returned false, log)).
  { unfold recognised_tf in Htf. run_checks.
    destruct (tensorflow_installed E), (is_tf_Dataset X); simpl in *; try reflexivity; discriminate. }
  rewrite Hallow. simpl negb. cbv iota.
  unfold assert_nonempty_input. rewrite Hn.
  unfold example_count, size_probes in *.
  run_checks. rewrite Hl.
  destruct (x_len X) as [k|e]; simpl.
  - inversion Hc; subst k. simpl.
    destruct (n =? len_y); simpl; [|reflexivity].
    destruct (assert_indexing_works E X None (Some n) _) as [[[]|e] log']; reflexivity.
  - destruct (x_shape0 X) as [k|e']; [|discriminate]. inversion Hc; subst k. simpl.
    rewrite <- app_assoc. simpl.
    destruct (n =? len_y); simpl; [|reflexivity].
    destruct (assert_indexing_works E X None (Some n) _) as [[[]|e''] log']; reflexivity.
Qed.

(** When neither size query answers, the module's own TypeError is raised. *)
Lemma inputs_no_size (E : env) (X : dataset) (y y' : labels)
    (multi_label allow_missing_classes : bool) (log : list event) :
  labels_accepted y multi_label allow_missing_classes y' ->
  recognised_tf E X = false ->
  is_None X = false ->
  example_count X = None ->
  assert_valid_inputs E X y None multi_label allow_missing_classes log
  = (raise TypeError [Lit "Data features X must support either: len(X) or X.shape[0]"],
     log ++ [Probed LenOf; Probed Shape0Of]).
Proof.
  intros [Hi Hy] Htf Hn Hc. unfold assert_valid_inputs.
  rewrite Hi. simpl.
  assert (Hstage :
    (if negb multi_label
     then y0 <- lift (labels_to_array y) ;;
          lift (assert_valid_class_labels y0 allow_missing_classes) ;; ret (LArray y0)
     else ret y) log = (Returned y', log)).
  { destruct multi_label; simpl.
    - now subst.
    - destruct Hy as [a [Ha [Hv Hy]]]. subst y'. run_checks. rewrite Ha. simpl. now rewrite Hv. }
  unfold bind at 1. unfold ret at 1.
  unfold bind at 1. rewrite Hstage.
  unfold bind at 1.
  assert (Hallow :
    try_except
      (import (tensorflow_installed E) "tensorflow" ;;
       (if is_tf_Dataset X then ret true else ret false))
      Exception (ret false) log = (Returned false, log)).
  { unfold recognised_tf in Htf. run_checks.
    destruct (tensorflow_installed E), (is_tf_Dataset X); simpl in *; try reflexivity; discriminate. }
  rewrite Hallow. simpl negb. cbv iota.
  unfold assert_nonempty_input. rewrite Hn.
  unfold example_count in *.
  run_checks.
  destruct (x_len X) as [k|e]; [discriminate|]. simpl.
  destruct (x_shape0 X) as [k|e']; [discriminate|]. simpl.
  now rewrite <- app_assoc.
Qed.

(** An error of the label stage reaches the caller as it is. *)
Lemma inputs_label_error (E : env) (X : dataset) (y : labels) (pred_probs : option probs)
    (allow_missing_classes : bool) (log : list event) (e : exn) :
  isinstance_labels y = true ->
  rbind (labels_to_array y) (fun a => assert_valid_class_labels a allow_missing_classes)
  = Raised e ->
  assert_valid_inputs E X y pred_probs false allow_missing_classes log = (Raised e, log).
Proof.
  intros Hi He. unfold assert_valid_inputs. rewrite Hi. run_checks.
  destruct (labels_to_array y) as [a|e1]; simpl in *.
  - rewrite He. reflexivity.
  - congruence.
Qed.

(** With [pred_probs] given, nothing is asked of [X]: the run is that on
    [None], but for the warning. *)
Lemma inputs_with_probs (E : env) (X : dataset) (y : labels) (pred_probs : probs)
    (multi_label allow_missing_classes : bool) (log : list event) :
  let r := assert_valid_inputs E X y (Some pred_probs) multi_label allow_missing_classes log in
  fst r = fst (assert_valid_inputs E X_None y (Some pred_probs) multi_label
                 allow_missing_classes log)
  /\ (snd r = log \/ snd r = log ++ [Warned both_given]).
Proof.
  unfold assert_valid_inputs. run_checks.
  destruct (isinstance_labels y); simpl; [|auto].
  destruct multi_label; simpl.
  - destruct (tensorflow_installed E), (is_tf_Dataset X); simpl;
      split_cases; auto.
  - destruct (labels_to_array y) as [a|e]; simpl; [|auto].
    destruct (assert_valid_class_labels a allow_missing_classes) as [[]|e]; simpl; [|auto].
    destruct (tensorflow_installed E), (is_tf_Dataset X); simpl;
      split_cases; auto.
Qed.

End Inputs.

(** * The claims *)

Section Decide.

Local Open Scope Q_scope.

Lemma QIn_existsb (q : Q) (l : list Q) : QIn q l <-> existsb (Qeq_bool q) l = true.
Proof.
  unfold QIn. rewrite InA_alt, existsb_exists. split; intros [x [H1 H2]]; exists x.
  - split; [exact H2 | now apply Qeq_bool_iff].
  - split; [now apply Qeq_bool_iff | exact H1].
Qed.

(** Labels without class 0 are no [{0, ..., K-1}]. *)
Lemma missing_zero (l : list Q) :
  l <> [] -> existsb (Qeq_bool 0) l = false -> forall K, ~ classes_are l K.
Proof.
  intros Hne Hz K Hc. assert (H0 : ~ QIn 0 l).
  { rewrite QIn_existsb, Hz. discriminate. }
  destruct K as [|K].
  - destruct l as [|x t]; [congruence|].
    destruct (proj1 (Hc x)) as [i [Hi _]]; [now constructor | lia].
  - apply H0. apply Hc. exists 0%nat. split; [lia | reflexivity].
Qed.

Lemma two_valued_by (a b : Q) (l : list Q) :
  In a l -> In b l -> Qeq_bool a b = false -> two_valued l.
Proof.
  intros Ha Hb Hab. exists a, b. repeat split; auto.
  intros E. apply Qeq_bool_iff in E. congruence.
Qed.

Lemma permutation_classes_are (l : list Q) (K : nat) :
  Permutation l (np_arange K) -> classes_are l K.
Proof.
  intros Hp q. rewrite np_arange_qnat in Hp.
  assert (Hq : QIn q l <-> QIn q (map qnat (seq 0 K))).
  { unfold QIn. rewrite !InA_alt. split; intros [x [E Hin]]; exists x; split; auto.
    - now apply (Permutation_in _ Hp).
    - now apply (Permutation_in _ (Permutation_sym Hp)). }
  rewrite Hq, QIn_range. split; intros [i [Hi E]]; exists i; split; auto; lia.
Qed.

End Decide.

Section Claims.

Local Open Scope Q_scope.

(** C1: [assert_valid_inputs(X=[[1,2],[3,4]], y=[0,1],
    pred_probs=np.array([[0.9,0.1],[0.2,0.8]]))] returns normally, whatever
    optional libraries are installed; the one thing it emits is the
    warning that [X] may be ignored. *)
Theorem valid_inputs_both_given (E : env) :
  run (assert_valid_inputs E features_2x2 labels_01 (Some probs_2x2) false false)
  = (Returned tt, [Warned both_given]).
Proof.
  destruct E as [[|] [|]]; vm_compute; reflexivity.
Qed.

(** The tabular containers do come out flat. *)
Lemma labels_to_array_tabular_flat (vals : list Q) (nrows : nat) :
  labels_to_array (LSeries vals) = Returned (mkArr [List.length vals] vals) /\
  labels_to_array (LDataFrame nrows 1 vals) = Returned (mkArr [(nrows * 1)%nat] vals).
Proof.
  split; reflexivity.
Qed.

(** C2: on the nested list [[1,2],[3,4]], an accepted container,
    [labels_to_array] returns without raising and the array it returns has
    two axes: it is not the 1D array its docstring promises. *)
Theorem labels_to_array_nested_is_2d :
  isinstance_labels nested_labels = true /\
  labels_to_array nested_labels = Returned (mkArr [2%nat; 2%nat] [1; 2; 3; 4]) /\
  ndim (mkArr [2%nat; 2%nat] [1; 2; 3; 4]) = 2%nat.
Proof.
  repeat split.
Qed.

(** C3: a 1D label array whose distinct values are exactly [0, ..., K-1]
    with [K >= 2] (a permutation of [0..K-1] in particular) passes
    [assert_valid_class_labels] with [allow_missing_classes=False]. *)
Theorem complete_class_labels_accepted (y : ndarray) (K : nat) :
  ndim y = 1%nat -> (2 <= K)%nat ->
  classes_are (data y) K \/ Permutation (data y) (np_arange K) ->
  assert_valid_class_labels y false = Returned tt.
Proof.
  intros Hd HK [Hc|Hp].
  - now apply labels_complete with K.
  - apply labels_complete with K; auto. now apply permutation_classes_are.
Qed.

(** The labels [0,0,1,2] (repeats) and [2,0,1] (a permutation) pass. *)
Lemma complete_class_labels_accepted_witness :
  assert_valid_class_labels labels_0012 false = Returned tt /\
  assert_valid_class_labels labels_201 false = Returned tt.
Proof.
  split.
  - apply (complete_class_labels_accepted labels_0012 3); [reflexivity | lia |].
    left. apply (unique_arange_classes (data labels_0012)). reflexivity.
  - apply (complete_class_labels_accepted labels_201 3); [reflexivity | lia |].
    right. simpl.
    apply perm_trans with [0; 2; 1]; [apply perm_swap | apply perm_skip, perm_swap].
Defined.

(** C4: with [allow_missing_classes=False], a 1D array with fewer than two
    distinct classes raises ValueError ("at least 2 classes"); one with two
    or more whose distinct classes are no [{0, ..., K-1}] raises TypeError,
    its message showing the distinct classes found; with
    [allow_missing_classes=True] every 1D array passes. *)
Theorem class_labels_rejected (y : ndarray) (Hd : ndim y = 1%nat) :
  (single_valued (data y) ->
   assert_valid_class_labels y false
   = raise ValueError [Lit "Labels must contain at least 2 classes."]) /\
  (two_valued (data y) -> (forall K, ~ classes_are (data y) K) ->
   assert_valid_class_labels y false
   = raise TypeError (zero_indexed_msg (np_unique (data y)))) /\
  assert_valid_class_labels y true = Returned tt.
Proof.
  split; [|split].
  - now apply labels_too_few.
  - now apply labels_gap.
  - now apply labels_relaxed.
Qed.

(** On [0]: ValueError; on [1,2,3]: TypeError showing [1 2 3]; both pass
    once missing classes are allowed. *)
Lemma class_labels_rejected_witness :
  assert_valid_class_labels labels_0 false
  = raise ValueError [Lit "Labels must contain at least 2 classes."] /\
  assert_valid_class_labels labels_123 false = raise TypeError (zero_indexed_msg [1; 2; 3]) /\
  assert_valid_class_labels labels_0 true = Returned tt /\
  assert_valid_class_labels labels_123 true = Returned tt.
Proof.
  split; [|split; [|split]].
  - apply (proj1 (class_labels_rejected labels_0 eq_refl)).
    apply single_valued_count. simpl. lia.
  - apply (proj1 (proj2 (class_labels_rejected labels_123 eq_refl))).
    + apply (two_valued_by 1 2); simpl; auto.
    + apply missing_zero; [discriminate | reflexivity].
  - apply (proj2 (proj2 (class_labels_rejected labels_0 eq_refl))).
  - apply (proj2 (proj2 (class_labels_rejected labels_123 eq_refl))).
Defined.

(** C5, as stated, fails on [1,2,3]: the class set misses 0, and the error
    is a TypeError, not a ValueError. *)
Lemma incomplete_classes_not_ValueError :
  ndim labels_123 = 1%nat /\
  (forall K, ~ classes_are (data labels_123) K) /\
  assert_valid_class_labels labels_123 false = raise TypeError (zero_indexed_msg [1; 2; 3]) /\
  ~ raises_kind (assert_valid_class_labels labels_123 false) ValueError.
Proof.
  split; [reflexivity|]. split; [|split; [reflexivity|]].
  - apply missing_zero; [discriminate | reflexivity].
  - intros [msg H]. discriminate H.
Qed.

(** C5, amended: with [allow_missing_classes=False], a 1D label array with
    two or more distinct classes that are not exactly [{0, ..., K-1}] fails
    with a TypeError. *)
Theorem incomplete_classes_TypeError (y : ndarray) :
  ndim y = 1%nat -> two_valued (data y) -> (forall K, ~ classes_are (data y) K) ->
  raises_kind (assert_valid_class_labels y false) TypeError.
Proof.
  intros Hd H2 Hn. exists (zero_indexed_msg (np_unique (data y))). now apply labels_gap.
Qed.

Lemma incomplete_classes_TypeError_witness :
  raises_kind (assert_valid_class_labels labels_123 false) TypeError.
Proof.
  apply (incomplete_classes_TypeError labels_123).
  - reflexivity.
  - apply (two_valued_by 1 2); simpl; auto.
  - apply missing_zero; [discriminate | reflexivity].
Defined.

(** C6: [assert_indexing_works] returns normally on every object that
    answers [X[idx]] at the sampled positions, also one without [.iloc] that
    is no recognised dataset type; when each of the four protocols is not
    applicable or fails, it raises a TypeError whose message names
    [X[index_list]] and [X.iloc[index_list]]. *)
Theorem indexing_check_outcomes (E : env) (X : dataset) (idx : option (list Z))
    (length_X : option Z) (log : list event) :
  (x_getitem X (sampled idx length_X) = Returned tt ->
   iloc_catchable X (sampled idx length_X) ->
   fst (assert_indexing_works E X idx length_X log) = Returned tt) /\
  (iloc_fails X (sampled idx length_X) -> torch_fails E X -> tf_fails E X ->
   getitem_fails X (sampled idx length_X) ->
   fst (assert_indexing_works E X idx length_X log) = raise TypeError [Lit indexing_msg]) /\
  mentions "X[index_list]" indexing_msg = true /\
  mentions "X.iloc[index_list]" indexing_msg = true.
Proof.
  split; [|split; [|split]].
  - now apply indexing_by_getitem.
  - now apply indexing_all_fail.
  - reflexivity.
  - reflexivity.
Qed.

(** An object with brackets only passes; a Python list, which supports
    none of the four, gets the TypeError. *)
Lemma indexing_check_outcomes_witness :
  fst (run (assert_indexing_works all_installed only_brackets None (Some 2%Z))) = Returned tt /\
  fst (run (assert_indexing_works all_installed features_2x2 None (Some 2%Z)))
  = raise TypeError [Lit indexing_msg].
Proof.
  split.
  - apply (proj1 (indexing_check_outcomes all_installed only_brackets None (Some 2%Z) [])).
    + reflexivity.
    + intros e Hp. discriminate Hp.
  - apply (proj1 (proj2 (indexing_check_outcomes all_installed features_2x2 None (Some 2%Z) []))).
    + left. reflexivity.
    + right. reflexivity.
    + right. reflexivity.
    + eexists. split; reflexivity.
Defined.

(** C7: [assert_valid_inputs(X=None, y=[0,1],
    pred_probs=np.array([[0.5,0.5],[0.5,0.5]]))] returns normally; and
    whenever [pred_probs] is given the outcome is the one for [X=None] and
    the log gains no query on [X] (at most the warning): the None check, the
    length comparison and the indexing check are skipped. *)
Theorem probs_given_skips_X_checks (E : env) (X : dataset) (y : labels) (pred_probs : probs)
    (multi_label allow_missing_classes : bool) (log : list event) :
  run (assert_valid_inputs E X_None labels_01 (Some probs_half) false false)
  = (Returned tt, []) /\
  fst (assert_valid_inputs E X y (Some pred_probs) multi_label allow_missing_classes log)
  = fst (assert_valid_inputs E X_None y (Some pred_probs) multi_label
           allow_missing_classes log) /\
  (snd (assert_valid_inputs E X y (Some pred_probs) multi_label allow_missing_classes log)
   = log \/
   snd (assert_valid_inputs E X y (Some pred_probs) multi_label allow_missing_classes log)
   = log ++ [Warned both_given]).
Proof.
  split.
  - destruct E as [[|] [|]]; vm_compute; reflexivity.
  - apply inputs_with_probs.
Qed.

(** C8: with no [pred_probs], when the example count of a checked [X]
    differs from the label count, [assert_valid_inputs] raises a ValueError
    that reports both lengths, having made the size queries only: the
    indexing check has not run. *)
Theorem length_mismatch_raised_first (E : env) (X : dataset) (y y' : labels)
    (multi_label allow_missing_classes : bool) (n len_y : Z) (log : list event) :
  labels_accepted y multi_label allow_missing_classes y' ->
  recognised_tf E X = false ->
  is_None X = false ->
  example_count X = Some n ->
  labels_len y' = Returned len_y ->
  n <> len_y ->
  assert_valid_inputs E X y None multi_label allow_missing_classes log
  = (raise ValueError (mismatch_msg n len_y), log ++ size_probes X) /\
  existsb indexing_probe (size_probes X) = false.
Proof.
  intros Hy Htf Hn Hc Hl Hne. split.
  - rewrite (inputs_without_probs E X y y' _ _ n len_y log Hy Htf Hn Hc Hl).
    apply Z.eqb_neq in Hne. now rewrite Hne.
  - unfold size_probes. now destruct (x_len X).
Qed.

(** [X=[[1,2]]] of length 1 against [y=[0,1]] of length 2. *)
Lemma length_mismatch_raised_first_witness :
  run (assert_valid_inputs all_installed features_1x2 labels_01 None false false)
  = (raise ValueError (mismatch_msg 1 2), [Probed LenOf]) /\
  existsb indexing_probe [Probed LenOf] = false.
Proof.
  apply (length_mismatch_raised_first all_installed features_1x2 labels_01
           (LArray (mkArr [2%nat] [0; 1])) false false 1%Z 2%Z []).
  - split; [reflexivity|]. exists (mkArr [2%nat] [0; 1]). repeat split.
  - reflexivity.
  - reflexivity.
  - reflexivity.
  - reflexivity.
  - discriminate.
Defined.

(** C9, as stated, fails twice.  On a sparse matrix [len(X)] raises, and
    [assert_valid_inputs] goes on to [X.shape[0]] and returns normally; on a
    DataFrame of 2 rows and columns 0..5, [X.iloc[[0,5]]] raises, and
    [assert_indexing_works] goes on to [X[[0,5]]] and returns normally. *)
Lemma failing_len_and_iloc_not_propagated :
  x_len (X_sparse 2)
  = raise TypeError [Lit "sparse matrix length is ambiguous; use getnnz() or shape[0]"] /\
  run (assert_valid_inputs all_installed (X_sparse 2) labels_01 None false false)
  = (Returned tt, [Probed LenOf; Probed Shape0Of; Probed (GetitemAt [0; 1]%Z)]) /\
  is_pandas frame_2x6 = true /\
  x_iloc frame_2x6 [0; 5]%Z = raise IndexError [Lit "positional indexers are out-of-bounds"] /\
  run (assert_indexing_works all_installed frame_2x6 (Some [0; 5]%Z) None)
  = (Returned tt, [Probed (IlocAt [0; 5]%Z); Probed (GetitemAt [0; 5]%Z)]).
Proof.
  split; [reflexivity|]. split; [reflexivity|]. split; [reflexivity|].
  split; reflexivity.
Qed.

Lemma pandas_not_streaming (X : dataset) :
  is_pandas X = true -> is_torch_Dataset X = false /\ is_tf_Dataset X = false.
Proof.
  unfold is_pandas, is_torch_Dataset, is_tf_Dataset. destruct (cls X); auto; discriminate.
Qed.

(** C9, amended: besides the torch and tensorflow probes, exceptions are
    swallowed around the size query and the [.iloc] attempt.  Whatever
    [len(X)] raises, [X.shape[0]] is tried next: its answer is the example
    count, and if it raises too the caller gets the module's TypeError.  An
    [Exception] from [.iloc] on a pandas container leads to [X[idx]]: the
    check passes if that works and raises the module's TypeError if that
    fails.  An error of the label checks reaches the caller unchanged. *)
Theorem size_and_iloc_failures_swallowed (E : env) (X : dataset) (y y' : labels)
    (multi_label allow_missing_classes : bool) (log : list event) (e : exn) :
  (labels_accepted y multi_label allow_missing_classes y' ->
   recognised_tf E X = false -> is_None X = false -> x_len X = Raised e ->
   (forall n len_y, x_shape0 X = Returned n -> labels_len y' = Returned len_y ->
      assert_valid_inputs E X y None multi_label allow_missing_classes log
      = if (n =? len_y)%Z
        then assert_indexing_works E X None (Some n)
               (log ++ [Probed LenOf; Probed Shape0Of])
        else (raise ValueError (mismatch_msg n len_y),
              log ++ [Probed LenOf; Probed Shape0Of])) /\
   (forall e', x_shape0 X = Raised e' ->
      assert_valid_inputs E X y None multi_label allow_missing_classes log
      = (raise TypeError [Lit "Data features X must support either: len(X) or X.shape[0]"],
         log ++ [Probed LenOf; Probed Shape0Of]))) /\
  (forall idx length_X,
     is_pandas X = true -> x_iloc X (sampled idx length_X) = Raised e -> Exception e = true ->
     (x_getitem X (sampled idx length_X) = Returned tt ->
      fst (assert_indexing_works E X idx length_X log) = Returned tt) /\
     (getitem_fails X (sampled idx length_X) ->
      fst (assert_indexing_works E X idx length_X log) = raise TypeError [Lit indexing_msg])) /\
  (forall pred_probs,
     isinstance_labels y = true ->
     rbind (labels_to_array y) (fun a => assert_valid_class_labels a allow_missing_classes)
     = Raised e ->
     assert_valid_inputs E X y pred_probs false allow_missing_classes log = (Raised e, log)).
Proof.
  split; [|split].
  - intros Hy Htf Hn Hlen. split.
    + intros n len_y Hs Hl.
      rewrite (inputs_without_probs E X y y' _ _ n len_y log Hy Htf Hn); auto.
      * unfold size_probes. now rewrite Hlen.
      * unfold example_count. now rewrite Hlen, Hs.
    + intros e' Hs. apply (inputs_no_size E X y y'); auto.
      unfold example_count. now rewrite Hlen, Hs.
  - intros idx length_X Hp Hi He. split.
    + intros Hg. apply indexing_by_getitem; [exact Hg|].
      intros e0 _ H0. rewrite Hi in H0. now inversion H0; subst.
    + intros Hg. destruct (pandas_not_streaming X Hp) as [Ht Hf].
      apply indexing_all_fail; auto.
      * right. exists e. now split.
      * now right.
      * now right.
  - intros pred_probs Hi He. now apply inputs_label_error.
Qed.

(** The sparse matrix and the DataFrame above. *)
Lemma size_and_iloc_failures_swallowed_witness :
  assert_valid_inputs all_installed (X_sparse 2) labels_01 None false false []
  = assert_indexing_works all_installed (X_sparse 2) None (Some 2%Z)
      [Probed LenOf; Probed Shape0Of] /\
  fst (assert_indexing_works all_installed frame_2x6 (Some [0; 5]%Z) None []) = Returned tt.
Proof.
  split.
  - refine (proj1 (proj1 (size_and_iloc_failures_swallowed all_installed (X_sparse 2)
              labels_01 (LArray (mkArr [2%nat] [0; 1])) false false []
              (mkExn TypeError
                 [Lit "sparse matrix length is ambiguous; use getnnz() or shape[0]"]))
              _ eq_refl eq_refl eq_refl) 2%Z 2%Z eq_refl eq_refl).
    split; [reflexivity|]. exists (mkArr [2%nat] [0; 1]). split; [reflexivity|].
    split; reflexivity.
  - refine (proj1 (proj1 (proj2 (size_and_iloc_failures_swallowed all_installed frame_2x6
              labels_01 labels_01 false false []
              (mkExn IndexError [Lit "positional indexers are out-of-bounds"])))
              (Some [0; 5]%Z) None eq_refl eq_refl eq_refl) eq_refl).
Defined.

(** C10: for a plain Python list [X] and labels that pass the label stage
    and have the length of [X], [assert_valid_inputs(X, y)] without
    [pred_probs] raises the TypeError of the indexing check: [X[[0, n-1]]]
    fails on a list and no other protocol applies. *)
Theorem python_list_fails_indexing (E : env) (l : list pyval) (y y' : labels)
    (multi_label allow_missing_classes : bool) (log : list event) :
  labels_accepted y multi_label allow_missing_classes y' ->
  labels_len y' = Returned (Z.of_nat (List.length l)) ->
  assert_valid_inputs E (X_list l) y None multi_label allow_missing_classes log
  = (raise TypeError [Lit indexing_msg],
     log ++ [Probed LenOf; Probed (GetitemAt [0; Z.of_nat (List.length l) - 1]%Z)]).
Proof.
  intros Hy Hl.
  rewrite (inputs_without_probs E (X_list l) y y' _ _ (Z.of_nat (List.length l))
             (Z.of_nat (List.length l)) log Hy); auto.
  - rewrite Z.eqb_refl. unfold assert_indexing_works. run_checks.
    destruct (torch_installed E), (tensorflow_installed E); simpl;
      now rewrite <- app_assoc.
  - unfold recognised_tf. apply andb_false_r.
Qed.

(** [X=[[1,2],[3,4]]] with [y=[0,1]]. *)
Lemma python_list_fails_indexing_witness :
  run (assert_valid_inputs all_installed features_2x2 labels_01 None false false)
  = (raise TypeError [Lit indexing_msg], [Probed LenOf; Probed (GetitemAt [0; 1]%Z)]).
Proof.
  apply (python_list_fails_indexing all_installed
           [PList [PNum 1; PNum 2]; PList [PNum 3; PNum 4]] labels_01
           (LArray (mkArr [2%nat] [0; 1])) false false []).
  - split; [reflexivity|]. exists (mkArr [2%nat] [0; 1]). split; [reflexivity|].
    split; reflexivity.
  - reflexivity.
Defined.

End Claims.

(** * Further properties of the checks *)

(** ** How a run of [assert_valid_inputs] decomposes *)

Section Decomposition.

Lemma label_stage_run (y y' : labels) (multi_label allow_missing_classes : bool)
    (log : list event) :
  labels_accepted y multi_label allow_missing_classes y' ->
  (if negb multi_label
   then y0 <- lift (labels_to_array y) ;;
        lift (assert_valid_class_labels y0 allow_missing_classes) ;; ret (LArray y0)
   else ret y) log = (Returned y', log).
Proof.
  intros [_ Hy]. destruct multi_label; simpl.
  - now subst.
  - destruct Hy as [a [Ha [Hv Hy]]]. subst y'. run_checks. rewrite Ha. simpl. now rewrite Hv.
Qed.

Lemma tf_probe_run (E : env) (X : dataset) (b : bool) (log : list event) :
  try_except
    (import (tensorflow_installed E) "tensorflow" ;;
     (if is_tf_Dataset X then ret true else ret b))
    Exception (ret b) log
  = (Returned (b || recognised_tf E X), log).
Proof.
  unfold recognised_tf. run_checks.
  destruct (tensorflow_installed E), (is_tf_Dataset X), b; reflexivity.
Qed.

(** With [pred_probs] given, a run whose labels pass is the checks on
    [pred_probs]. *)
Lemma inputs_probs_unfold (E : env) (X : dataset) (y y' : labels) (pred_probs : probs)
    (multi_label allow_missing_classes : bool) (log : list event) :
  labels_accepted y multi_label allow_missing_classes y' ->
  assert_valid_inputs E X y (Some pred_probs) multi_label allow_missing_classes log
  = probs_checks X y' pred_probs multi_label allow_missing_classes log.
Proof.
  intros Hy. pose proof Hy as [Hi _]. unfold assert_valid_inputs.
  rewrite Hi. simpl.
  unfold bind at 1. unfold ret at 1.
  unfold bind at 1. rewrite (label_stage_run _ _ _ _ log Hy).
  unfold bind at 1. rewrite tf_probe_run. simpl.
  unfold bind at 1. unfold ret at 1.
  reflexivity.
Qed.

(** A recognised tensorflow Dataset is not looked at. *)
Lemma inputs_tf_unchecked (E : env) (X : dataset) (y y' : labels)
    (multi_label allow_missing_classes : bool) (log : list event) :
  labels_accepted y multi_label allow_missing_classes y' ->
  recognised_tf E X = true ->
  assert_valid_inputs E X y None multi_label allow_missing_classes log = (Returned tt, log).
Proof.
  intros Hy Htf. pose proof Hy as [Hi _]. unfold assert_valid_inputs.
  rewrite Hi. simpl.
  unfold bind at 1. unfold ret at 1.
  unfold bind at 1. rewrite (label_stage_run _ _ _ _ log Hy).
  unfold bind at 1. rewrite tf_probe_run, Htf. reflexivity.
Qed.

(** [X = None] stops the run at [assert_nonempty_input]. *)
Lemma inputs_None (E : env) (X : dataset) (y y' : labels)
    (multi_label allow_missing_classes : bool) (log : list event) :
  labels_accepted y multi_label allow_missing_classes y' ->
  is_None X = true ->
  assert_valid_inputs E X y None multi_label allow_missing_classes log
  = (raise ValueError [Lit "Data features X cannot be None. Currently X is None."], log).
Proof.
  intros Hy Hn. pose proof Hy as [Hi _]. unfold assert_valid_inputs.
  rewrite Hi. simpl.
  unfold bind at 1. unfold ret at 1.
  unfold bind at 1. rewrite (label_stage_run _ _ _ _ log Hy).
  unfold bind at 1. rewrite tf_probe_run.
  assert (Htf : recognised_tf E X = false).
  { unfold recognised_tf, is_tf_Dataset. unfold is_None in Hn.
    destruct (cls X); try discriminate. apply andb_false_r. }
  rewrite Htf. simpl. unfold assert_nonempty_input. rewrite Hn. reflexivity.
Qed.

(** When [len(y)] itself raises, the error reaches the caller. *)
Lemma inputs_len_y_error (E : env) (X : dataset) (y y' : labels)
    (multi_label allow_missing_classes : bool) (n : Z) (e : exn) (log : list event) :
  labels_accepted y multi_label allow_missing_classes y' ->
  recognised_tf E X = false ->
  is_None X = false ->
  example_count X = Some n ->
  labels_len y' = Raised e ->
  assert_valid_inputs E X y None multi_label allow_missing_classes log
  = (Raised e, log ++ size_probes X).
Proof.
  intros Hy Htf Hn Hc Hl. pose proof Hy as [Hi _]. unfold assert_valid_inputs.
  rewrite Hi. simpl.
  unfold bind at 1. unfold ret at 1.
  unfold bind at 1. rewrite (label_stage_run _ _ _ _ log Hy).
  unfold bind at 1. rewrite tf_probe_run, Htf. simpl.
  unfold assert_nonempty_input. rewrite Hn.
  unfold example_count, size_probes in *.
  run_checks. rewrite Hl.
  destruct (x_len X) as [k|e0]; simpl.
  - reflexivity.
  - destruct (x_shape0 X) as [k|e']; [|discriminate]. simpl.
    now rewrite <- app_assoc.
Qed.

(** The label stage either binds checked labels or raises an error that
    depends on nothing but [y] and the two flags. *)
Lemma label_stage_cases (y : labels) (multi_label allow_missing_classes : bool) :
  (exists y', labels_accepted y multi_label allow_missing_classes y') \/
  (exists e, forall E X pred_probs log,
     assert_valid_inputs E X y pred_probs multi_label allow_missing_classes log
     = (Raised e, log)).
Proof.
  destruct (isinstance_labels y) eqn:Hi.
  - destruct multi_label.
    + left. exists y. now split.
    + destruct (labels_to_array y) as [a|e] eqn:Ha.
      * destruct (assert_valid_class_labels a allow_missing_classes) as [[]|e] eqn:Hv.
        -- left. exists (LArray a). split; [exact Hi|]. exists a. auto.
        -- right. exists e. intros. apply inputs_label_error; [exact Hi|].
           rewrite Ha. exact Hv.
      * right. exists e. intros. apply inputs_label_error; [exact Hi|]. now rewrite Ha.
  - right. eexists. intros. unfold assert_valid_inputs. rewrite Hi. reflexivity.
Qed.

End Decomposition.

(** ** The range check on [pred_probs] *)

Section Range.

Local Open Scope Q_scope.


Lemma Qltb_ge (x y : Q) : Qltb x y = false <-> y <= x.
Proof.
  unfold Qltb. rewrite negb_false_iff. apply Qle_bool_iff.
Qed.



Lemma fold_min_ge (t : list Q) : forall x b,
  b <= x -> Forall (Qle b) t -> b <= fold_left Qmin t x.
Proof.
  induction t as [|h t IH]; intros x b Hx Ht; simpl.
  - exact Hx.
  - inversion Ht; subst. apply IH; [|assumption]. now apply Q.min_glb.
Qed.



Lemma fold_max_le (t : list Q) : forall x b,
  x <= b -> Forall (fun q => q <= b) t -> fold_left Qmax t x <= b.
Proof.
  induction t as [|h t IH]; intros x b Hx Ht; simpl.
  - exact Hx.
  - inversion Ht; subst. apply IH; [|assumption]. now apply Q.max_lub.
Qed.



Lemma np_min_in_range (p : ndarray) :
  data p <> [] -> Forall in_unit_interval (data p) ->
  exists lo, np_min p = Returned lo /\ Qltb lo 0 = false.
Proof.
  unfold np_min. destruct (data p) as [|x t]; [congruence|]. intros _ H.
  eexists. split; [reflexivity|]. apply Qltb_ge.
  inversion H as [|? ? [Hx _] Ht]; subst. apply fold_min_ge; [exact Hx|].
  eapply Forall_impl; [|exact Ht]. now intros q [Hq _].
Qed.

Lemma np_max_in_range (p : ndarray) :
  data p <> [] -> Forall in_unit_interval (data p) ->
  exists hi, np_max p = Returned hi /\ Qltb 1 hi = false.
Proof.
  unfold np_max. destruct (data p) as [|x t]; [congruence|]. intros _ H.
  eexists. split; [reflexivity|]. apply Qltb_ge.
  inversion H as [|? ? [_ Hx] Ht]; subst. apply fold_max_le; [exact Hx|].
  eapply Forall_impl; [|exact Ht]. now intros q [_ Hq].
Qed.



End Range.

(** ** The checks on [pred_probs] *)

Section Probabilities.

Local Open Scope Q_scope.

Lemma probs_checks_relaxed (X : dataset) (y : labels) (p : ndarray)
    (multi_label allow_missing_classes : bool) (n : Z) (log : list event) :
  np_len p = Returned n -> labels_len y = Returned n -> ndim p = 2%nat ->
  data p <> [] -> Forall in_unit_interval (data p) ->
  allow_missing_classes || multi_label = true ->
  probs_checks X y (PArray p) multi_label allow_missing_classes log
  = (Returned tt, log ++ warning_for X).
Proof.
  intros Hp Hy Hd Hne Hr Hf. unfold probs_checks, warning_for. unfold ndim in Hd.
  destruct (np_min_in_range p Hne Hr) as [lo [Hlo Hlo0]].
  destruct (np_max_in_range p Hne Hr) as [hi [Hhi Hhi1]].
  run_checks. rewrite Hp, Hy. simpl. rewrite Z.eqb_refl, Hd. simpl.
  rewrite Hlo. simpl. rewrite Hlo0. simpl. rewrite Hhi. simpl. rewrite Hhi1. simpl.
  destruct allow_missing_classes, multi_label; try discriminate;
    destruct (is_None X); simpl; now rewrite ?app_nil_r.
Qed.

Lemma probs_checks_counted (X : dataset) (y : labels) (a p : ndarray) (n k : Z)
    (log : list event) :
  np_len p = Returned n -> labels_len y = Returned n -> ndim p = 2%nat ->
  data p <> [] -> Forall in_unit_interval (data p) ->
  labels_asarray y = Returned a -> shape_at p 1 = Returned k ->
  probs_checks X y (PArray p) false false log
  = (if (Z.of_nat (List.length (np_unique (data a))) =? k)%Z
     then Returned tt
     else raise ValueError (class_count_msg k (Z.of_nat (List.length (np_unique (data a))))),
     log ++ warning_for X).
Proof.
  intros Hp Hy Hd Hne Hr Ha Hk. unfold probs_checks, warning_for. unfold ndim in Hd.
  destruct (np_min_in_range p Hne Hr) as [lo [Hlo Hlo0]].
  destruct (np_max_in_range p Hne Hr) as [hi [Hhi Hhi1]].
  run_checks. rewrite Hp, Hy. simpl. rewrite Z.eqb_refl, Hd. simpl.
  rewrite Hlo. simpl. rewrite Hlo0. simpl. rewrite Hhi. simpl. rewrite Hhi1. simpl.
  destruct (is_None X); simpl; rewrite Ha; simpl; rewrite Hk; simpl;
    destruct (Z.eqb _ k); simpl; now rewrite ?app_nil_r.
Qed.


Lemma probs_checks_empty (X : dataset) (y : labels) (p : ndarray)
    (multi_label allow_missing_classes : bool) (n : Z) (log : list event) :
  np_len p = Returned n -> labels_len y = Returned n -> ndim p = 2%nat ->
  data p = [] ->
  probs_checks X y (PArray p) multi_label allow_missing_classes log
  = (raise ValueError (zero_size "minimum"), log).
Proof.
  intros Hp Hy Hd He. unfold probs_checks, np_min. unfold ndim in Hd.
  run_checks. rewrite Hp, Hy. simpl. rewrite Z.eqb_refl, Hd. simpl.
  now rewrite He.
Qed.


End Probabilities.

(** ** The indexing check, with its log *)

(** As [split_cases], keeping what each test decided. *)
Ltac split_cases_eq :=
  repeat match goal with
         | |- context [if ?c then _ else _] => destruct c eqn:?; simpl
         | |- context [match ?x with Returned _ => _ | Raised _ => _ end] =>
             destruct x eqn:?; simpl
         end.

Section IndexingLog.

Lemma indexing_at_sampled (E : env) (X : dataset) (idx : option (list Z))
    (length_X : option Z) :
  assert_indexing_works E X idx length_X
  = assert_indexing_works E X (Some (sampled idx length_X)) None.
Proof.
  destruct idx, length_X; reflexivity.
Qed.

Lemma indexing_iloc_ok (E : env) (X : dataset) (ix : list Z) (log : list event) :
  is_pandas X = true -> x_iloc X ix = Returned tt ->
  assert_indexing_works E X (Some ix) None log
  = (Returned tt, log ++ [Probed (IlocAt ix)]).
Proof.
  intros Hp Hi. unfold assert_indexing_works. run_checks. rewrite Hp. simpl.
  now rewrite Hi.
Qed.

Lemma indexing_iloc_uncaught (E : env) (X : dataset) (ix : list Z) (e : exn)
    (log : list event) :
  is_pandas X = true -> x_iloc X ix = Raised e -> Exception e = false ->
  assert_indexing_works E X (Some ix) None log
  = (Raised e, log ++ [Probed (IlocAt ix)]).
Proof.
  intros Hp Hi He. unfold assert_indexing_works. run_checks. rewrite Hp. simpl.
  rewrite Hi. simpl. now rewrite He.
Qed.

Lemma indexing_torch (E : env) (X : dataset) (ix : list Z) (log : list event) :
  torch_installed E = true -> is_torch_Dataset X = true ->
  assert_indexing_works E X (Some ix) None log
  = (Returned tt, log ++ [Probed (SubsetOf ix)]).
Proof.
  intros Hi Ht. unfold assert_indexing_works. run_checks.
  assert (Hp : is_pandas X = false).
  { unfold is_pandas, is_torch_Dataset in *. now destruct (cls X). }
  rewrite Hp, Hi, Ht. reflexivity.
Qed.

Lemma indexing_tf (E : env) (X : dataset) (ix : list Z) (log : list event) :
  tensorflow_installed E = true -> is_tf_Dataset X = true ->
  assert_indexing_works E X (Some ix) None log = (Returned tt, log).
Proof.
  intros Hi Ht. unfold assert_indexing_works. run_checks.
  assert (Hp : is_pandas X = false).
  { unfold is_pandas, is_tf_Dataset in *. now destruct (cls X). }
  assert (Hq : is_torch_Dataset X = false).
  { unfold is_torch_Dataset, is_tf_Dataset in *. now destruct (cls X). }
  rewrite Hp, Hi, Ht, Hq. now destruct (torch_installed E).
Qed.

Lemma indexing_getitem_uncaught (E : env) (X : dataset) (ix : list Z) (e : exn)
    (log : list event) :
  iloc_fails X ix -> torch_fails E X -> tf_fails E X ->
  x_getitem X ix = Raised e -> Exception e = false ->
  fst (assert_indexing_works E X (Some ix) None log) = Raised e.
Proof.
  intros Hi Ht Hf Hg He. unfold assert_indexing_works.
  assert (Hi' : fst (try_except
                  (if is_pandas X then py_iloc X ix ;; ret true else ret false)
                  Exception (ret false) log) = Returned false).
  { run_checks. destruct Hi as [Hp|[e' [Hc He']]].
    - now rewrite Hp.
    - destruct (is_pandas X); [|reflexivity]. simpl. rewrite Hc. simpl. now rewrite He'. }
  unfold bind at 1.
  destruct (try_except _ Exception (ret false) log) as [r log1]. simpl in Hi'. subst r.
  simpl. run_checks.
  destruct Ht as [Ht|Ht], Hf as [Hf|Hf]; rewrite Ht, Hf; simpl;
    destruct (torch_installed E), (is_torch_Dataset X), (tensorflow_installed E),
      (is_tf_Dataset X); simpl; try discriminate; rewrite Hg; simpl; now rewrite He.
Qed.

Lemma indexing_plain (E : env) (X : dataset) (ix : list Z) (log : list event) :
  is_pandas X = false -> is_torch_Dataset X = false -> is_tf_Dataset X = false ->
  assert_indexing_works E X (Some ix) None log
  = (match x_getitem X ix with
     | Returned _ => Returned tt
     | Raised e => if Exception e then raise TypeError [Lit indexing_msg] else Raised e
     end, log ++ [Probed (GetitemAt ix)]).
Proof.
  intros Hp Ht Hf. unfold assert_indexing_works. run_checks. rewrite Hp, Ht, Hf.
  destruct (torch_installed E), (tensorflow_installed E); simpl;
    (destruct (x_getitem X ix) as [[]|e]; simpl; [reflexivity|]);
    now destruct (Exception e).
Qed.

Lemma indexing_sound (E : env) (X : dataset) (ix : list Z) (log : list event) :
  fst (assert_indexing_works E X (Some ix) None log) = Returned tt ->
  protocol_succeeds E X ix.
Proof.
  unfold assert_indexing_works, protocol_succeeds. run_checks.
  destruct (is_pandas X) eqn:Hp; simpl.
  - destruct (x_iloc X ix) as [[]|e] eqn:Hi; simpl; [auto|].
    destruct (Exception e); simpl; [|discriminate].
    destruct (torch_installed E), (is_torch_Dataset X), (tensorflow_installed E),
      (is_tf_Dataset X); simpl; auto;
      (destruct (x_getitem X ix) as [[]|e']; simpl; [auto 6|]);
      destruct (Exception e'); simpl; discriminate.
  - destruct (torch_installed E), (is_torch_Dataset X), (tensorflow_installed E),
      (is_tf_Dataset X); simpl; auto;
      (destruct (x_getitem X ix) as [[]|e']; simpl; [auto 6|]);
      destruct (Exception e'); simpl; discriminate.
Qed.

Lemma indexing_exhaustive (E : env) (X : dataset) (ix : list Z) (log : list event) :
  fst (assert_indexing_works E X (Some ix) None log) = Returned tt \/
  fst (assert_indexing_works E X (Some ix) None log) = raise TypeError [Lit indexing_msg] \/
  exists e, fst (assert_indexing_works E X (Some ix) None log) = Raised e /\
            Exception e = false.
Proof.
  unfold assert_indexing_works. run_checks. split_cases_eq;
    repeat match goal with a : unit |- _ => destruct a end; auto;
    (right; right; eexists; split; [reflexivity | assumption]).
Qed.

End IndexingLog.

(** ** Labels *)

Section MoreLabels.

Local Open Scope Q_scope.


Lemma class_labels_sound (y : ndarray) :
  assert_valid_class_labels y false = Returned tt ->
  ndim y = 1%nat /\ exists K, (2 <= K)%nat /\ classes_are (data y) K.
Proof.
  unfold assert_valid_class_labels.
  destruct (ndim y =? 1)%nat eqn:Hd; simpl; [|discriminate].
  destruct (List.length (np_unique (data y)) <? 2)%nat eqn:Hk; [discriminate|].
  destruct (ne_any _ _) eqn:Hne; [discriminate|]. intros _.
  split; [now apply Nat.eqb_eq|].
  exists (List.length (np_unique (data y))). split.
  - now apply Nat.ltb_ge.
  - now apply unique_arange_classes.
Qed.


(** X2: [labels_to_array] raises nothing but ValueError, with one of its
    two messages: whatever numpy raised on a list is replaced. *)
Theorem labels_to_array_raises_ValueError (y : labels) (e : exn) :
  labels_to_array y = Raised e ->
  e = mkExn ValueError [Lit "labels must be one dimensional."] \/
  e = mkExn ValueError
        [Lit "List of labels must be convertable to 1D numpy array via: np.ndarray(labels)."].
Proof.
  destruct y as [l|a|vals|r c vals|l|q]; unfold labels_to_array; simpl.
  - destruct (stack (map np_asarray l)) as [[s d]|e0]; intros H; inversion H; auto.
  - discriminate.
  - discriminate.
  - destruct (negb (Z.of_nat c =? 1)%Z); intros H; inversion H; auto.
  - destruct (stack (map np_asarray l)) as [[s d]|e0]; intros H; inversion H; auto.
  - discriminate.
Qed.

Lemma labels_to_array_raises_ValueError_witness :
  labels_to_array ragged_labels
  = Raised (mkExn ValueError
      [Lit "List of labels must be convertable to 1D numpy array via: np.ndarray(labels)."]) /\
  (mkExn ValueError
     [Lit "List of labels must be convertable to 1D numpy array via: np.ndarray(labels)."]
   = mkExn ValueError [Lit "labels must be one dimensional."] \/
   mkExn ValueError
     [Lit "List of labels must be convertable to 1D numpy array via: np.ndarray(labels)."]
   = mkExn ValueError
       [Lit "List of labels must be convertable to 1D numpy array via: np.ndarray(labels)."]).
Proof.
  split; [reflexivity|].
  apply (labels_to_array_raises_ValueError ragged_labels). reflexivity.
Defined.

(** A DataFrame of labels is flattened when it has exactly one column
    and refused with a ValueError otherwise. *)
Lemma dataframe_labels (nrows ncols : nat) (vals : list Q) :
  labels_to_array (LDataFrame nrows ncols vals)
  = if (ncols =? 1)%nat
    then Returned (mkArr [nrows] vals)
    else raise ValueError [Lit "labels must be one dimensional."].
Proof.
  unfold labels_to_array. simpl. destruct (Nat.eqb_spec ncols 1) as [->|Hc].
  - simpl. unfold flatten. simpl. now rewrite Nat.mul_1_r.
  - destruct (Z.eqb_spec (Z.of_nat ncols) 1) as [H|H]; [|reflexivity].
    exfalso. apply Hc. lia.
Qed.

(** X3: labels that [labels_to_array] turns into an array that is not 1D
    are refused by [assert_valid_inputs] (not multi-label) with a
    ValueError, whatever [X], [pred_probs] and [allow_missing_classes]. *)
Theorem non_1d_labels_rejected (E : env) (X : dataset) (y : labels) (a : ndarray)
    (pred_probs : option probs) (allow_missing_classes : bool) (log : list event) :
  isinstance_labels y = true -> labels_to_array y = Returned a -> ndim a <> 1%nat ->
  assert_valid_inputs E X y pred_probs false allow_missing_classes log
  = (raise ValueError [Lit "labels must be 1D numpy array."], log).
Proof.
  intros Hi Ha Hd. apply inputs_label_error; [exact Hi|].
  rewrite Ha. simpl. unfold assert_valid_class_labels.
  destruct (Nat.eqb_spec (ndim a) 1); [contradiction | reflexivity].
Qed.

Lemma non_1d_labels_rejected_witness :
  assert_valid_inputs all_installed features_2x2 nested_labels (Some probs_2x2) false true []
  = (raise ValueError [Lit "labels must be 1D numpy array."], []).
Proof.
  apply (non_1d_labels_rejected all_installed features_2x2 nested_labels
           (mkArr [2%nat; 2%nat] [1; 2; 3; 4])).
  - reflexivity.
  - reflexivity.
  - discriminate.
Defined.

(** X4: labels that pass [assert_valid_class_labels] with
    [allow_missing_classes=False] are 1D and their distinct values are
    exactly [0, ..., K-1] for some [K >= 2]. *)
Theorem accepted_class_labels_complete (y : ndarray) :
  assert_valid_class_labels y false = Returned tt ->
  ndim y = 1%nat /\ exists K, (2 <= K)%nat /\ classes_are (data y) K.
Proof.
  apply class_labels_sound.
Qed.

Lemma accepted_class_labels_complete_witness :
  ndim labels_0012 = 1%nat /\ exists K, (2 <= K)%nat /\ classes_are (data labels_0012) K.
Proof.
  apply (accepted_class_labels_complete labels_0012). reflexivity.
Defined.

(** Labels in a container that is no list, array, Series or DataFrame
    are refused with a TypeError before anything else is looked at. *)
Lemma unaccepted_container_TypeError (E : env) (X : dataset) (y : labels)
    (pred_probs : option probs) (multi_label allow_missing_classes : bool)
    (log : list event) :
  isinstance_labels y = false ->
  assert_valid_inputs E X y pred_probs multi_label allow_missing_classes log
  = (raise TypeError [Lit "labels should be a numpy array or pandas Series."], log).
Proof.
  intros Hi. unfold assert_valid_inputs. rewrite Hi. reflexivity.
Qed.

(** X5: the labels are checked first and an error there is final: either
    the labels pass their stage, or [assert_valid_inputs] raises one and the
    same error whatever [X], [pred_probs] and the installed libraries are,
    with nothing asked of [X] and no warning. *)
Theorem label_errors_come_first (y : labels) (multi_label allow_missing_classes : bool) :
  (exists y', labels_accepted y multi_label allow_missing_classes y') \/
  (exists e, forall E X pred_probs log,
     assert_valid_inputs E X y pred_probs multi_label allow_missing_classes log
     = (Raised e, log)).
Proof.
  apply label_stage_cases.
Qed.

End MoreLabels.

(** ** Features *)

Section MoreFeatures.

Local Open Scope Z_scope.

Lemma accepted_01 : labels_accepted labels_01 false false (LArray array_01).
Proof.
  split; [reflexivity|]. exists array_01. split; [reflexivity|]. split; reflexivity.
Qed.

Lemma accepted_none : labels_accepted no_labels false true (LArray (mkArr [0%nat] [])).
Proof.
  split; [reflexivity|]. eexists. split; [reflexivity|]. split; reflexivity.
Qed.

(** X6: without [pred_probs], [X = None] is refused with a ValueError once
    the labels have passed, and nothing is asked of [X]. *)
Theorem None_features_rejected (E : env) (X : dataset) (y y' : labels)
    (multi_label allow_missing_classes : bool) (log : list event) :
  labels_accepted y multi_label allow_missing_classes y' ->
  is_None X = true ->
  assert_valid_inputs E X y None multi_label allow_missing_classes log
  = (raise ValueError [Lit "Data features X cannot be None. Currently X is None."], log).
Proof.
  apply inputs_None.
Qed.

Lemma None_features_rejected_witness :
  assert_valid_inputs all_installed X_None labels_01 None false false []
  = (raise ValueError [Lit "Data features X cannot be None. Currently X is None."], []).
Proof.
  apply (None_features_rejected all_installed X_None labels_01 (LArray array_01)).
  - exact accepted_01.
  - reflexivity.
Defined.

(** X7: a tensorflow Dataset, when tensorflow can be imported, is accepted
    without [pred_probs] as soon as the labels pass: neither its size nor
    its indexing is consulted, whatever they would answer. *)
Theorem tf_dataset_not_checked (E : env) (X : dataset) (y y' : labels)
    (multi_label allow_missing_classes : bool) (log : list event) :
  labels_accepted y multi_label allow_missing_classes y' ->
  recognised_tf E X = true ->
  assert_valid_inputs E X y None multi_label allow_missing_classes log = (Returned tt, log).
Proof.
  apply inputs_tf_unchecked.
Qed.

Lemma tf_dataset_not_checked_witness :
  assert_valid_inputs all_installed X_tf labels_01 None false false [] = (Returned tt, []).
Proof.
  apply (tf_dataset_not_checked all_installed X_tf labels_01 (LArray array_01)).
  - exact accepted_01.
  - reflexivity.
Defined.

Lemma sampled_in_bounds (n : nat) :
  forallb (fun i => (- Z.of_nat n <=? i) && (i <? Z.of_nat n)) [0; Z.of_nat n - 1]
  = negb (n =? 0)%nat.
Proof.
  simpl. destruct n as [|k].
  - reflexivity.
  - replace (- Z.of_nat (S k) <=? 0) with true by (symmetry; apply Z.leb_le; lia).
    replace (0 <? Z.of_nat (S k)) with true by (symmetry; apply Z.ltb_lt; lia).
    replace (- Z.of_nat (S k) <=? Z.of_nat (S k) - 1) with true
      by (symmetry; apply Z.leb_le; lia).
    replace (Z.of_nat (S k) - 1 <? Z.of_nat (S k)) with true
      by (symmetry; apply Z.ltb_lt; lia).
    reflexivity.
Qed.

(** X8: a numpy array [X] with as many rows as there are labels is accepted
    without [pred_probs] after one size query and one subscript at the first
    and last row; with no rows (and no labels) the subscript fails and the
    caller gets the TypeError of the indexing check. *)
Theorem ndarray_features_checked (E : env) (a : ndarray) (n : nat) (s : list nat)
    (y y' : labels) (multi_label allow_missing_classes : bool) (log : list event) :
  shape a = n :: s ->
  labels_accepted y multi_label allow_missing_classes y' ->
  labels_len y' = Returned (Z.of_nat n) ->
  assert_valid_inputs E (X_ndarray a) y None multi_label allow_missing_classes log
  = (if (n =? 0)%nat then raise TypeError [Lit indexing_msg] else Returned tt,
     log ++ [Probed LenOf; Probed (GetitemAt [0; Z.of_nat n - 1])]).
Proof.
  intros Hs Hy Hl.
  rewrite (inputs_without_probs E (X_ndarray a) y y' _ _ (Z.of_nat n) (Z.of_nat n) log Hy);
    auto.
  - rewrite Z.eqb_refl, indexing_at_sampled, indexing_plain by reflexivity.
    assert (Hg : x_getitem (X_ndarray a) [0; Z.of_nat n - 1]
                 = if (n =? 0)%nat
                   then raise IndexError [Lit "index is out of bounds for axis 0"]
                   else Returned tt).
    { unfold X_ndarray. cbn [x_getitem]. rewrite Hs, sampled_in_bounds.
      now destruct (n =? 0)%nat. }
    cbn [sampled]. rewrite Hg.
    assert (Hp : size_probes (X_ndarray a) = [Probed LenOf]).
    { unfold size_probes, X_ndarray. cbn [x_len]. unfold np_len. now rewrite Hs. }
    rewrite Hp, <- app_assoc. now destruct (n =? 0)%nat.
  - unfold recognised_tf. apply andb_false_r.
  - unfold example_count. simpl. unfold np_len. now rewrite Hs.
Qed.

Lemma ndarray_features_checked_witness :
  assert_valid_inputs all_installed (X_ndarray (mkArr [2%nat; 2%nat] [1; 2; 3; 4]%Q))
    labels_01 None false false []
  = (Returned tt, [Probed LenOf; Probed (GetitemAt [0; 1])]) /\
  assert_valid_inputs all_installed (X_ndarray (mkArr [0%nat] [])) no_labels None false true []
  = (raise TypeError [Lit indexing_msg], [Probed LenOf; Probed (GetitemAt [0; -1])]).
Proof.
  split.
  - apply (ndarray_features_checked all_installed (mkArr [2%nat; 2%nat] [1; 2; 3; 4]%Q)
             2 [2%nat] labels_01 (LArray array_01) false false []).
    + reflexivity.
    + exact accepted_01.
    + reflexivity.
  - apply (ndarray_features_checked all_installed (mkArr [0%nat] []) 0 [] no_labels
             (LArray (mkArr [0%nat] [])) false true []).
    + reflexivity.
    + exact accepted_none.
    + reflexivity.
Defined.

(** X9: when [assert_valid_inputs] returns normally without [pred_probs],
    the labels passed their stage and either [X] is a recognised tensorflow
    Dataset or [X] is not None, a size query gave as many examples as there
    are labels, and one of the four indexing protocols succeeded at the
    first and last position. *)
Theorem accepted_features_sound (E : env) (X : dataset) (y : labels)
    (multi_label allow_missing_classes : bool) (log : list event) :
  fst (assert_valid_inputs E X y None multi_label allow_missing_classes log) = Returned tt ->
  exists y',
    labels_accepted y multi_label allow_missing_classes y' /\
    (recognised_tf E X = true \/
     (is_None X = false /\
      exists n, example_count X = Some n /\ labels_len y' = Returned n /\
                protocol_succeeds E X [0; n - 1])).
Proof.
  intros H.
  destruct (label_stage_cases y multi_label allow_missing_classes) as [[y' Hy]|[e He]].
  2:{ rewrite He in H. discriminate H. }
  exists y'. split; [exact Hy|].
  destruct (recognised_tf E X) eqn:Htf; [now left | right].
  destruct (is_None X) eqn:Hn.
  { rewrite (inputs_None E X y y' _ _ log Hy Hn) in H. discriminate H. }
  split; [reflexivity|].
  destruct (example_count X) as [n|] eqn:Hc.
  2:{ rewrite (inputs_no_size E X y y' _ _ log Hy Htf Hn Hc) in H. discriminate H. }
  exists n. split; [reflexivity|].
  destruct (labels_len y') as [m|e] eqn:Hl.
  2:{ rewrite (inputs_len_y_error E X y y' _ _ n e log Hy Htf Hn Hc Hl) in H.
      discriminate H. }
  rewrite (inputs_without_probs E X y y' _ _ n m log Hy Htf Hn Hc Hl) in H.
  destruct (Z.eqb_spec n m) as [->|Hne]; [|discriminate H].
  split; [reflexivity|].
  rewrite indexing_at_sampled in H. now apply indexing_sound in H.
Qed.

Lemma accepted_features_sound_witness :
  exists y',
    labels_accepted labels_01 false false y' /\
    (recognised_tf all_installed (X_sparse 2) = true \/
     (is_None (X_sparse 2) = false /\
      exists n, example_count (X_sparse 2) = Some n /\ labels_len y' = Returned n /\
                protocol_succeeds all_installed (X_sparse 2) [0; n - 1])).
Proof.
  apply (accepted_features_sound all_installed (X_sparse 2) labels_01 false false []).
  reflexivity.
Defined.

(** X10: in multi-label mode [allow_missing_classes] changes nothing: the
    run is the same for both of its values. *)
Theorem multi_label_ignores_missing_classes (E : env) (X : dataset) (y : labels)
    (pred_probs : option probs) (allow_missing_classes : bool) (log : list event) :
  assert_valid_inputs E X y pred_probs true allow_missing_classes log
  = assert_valid_inputs E X y pred_probs true (negb allow_missing_classes) log.
Proof.
  unfold assert_valid_inputs. destruct allow_missing_classes; reflexivity.
Qed.

End MoreFeatures.

(** ** Predicted probabilities *)

Section MoreProbabilities.

Local Open Scope Q_scope.

Lemma unit_interval_dec (q : Q) :
  Qle_bool 0 q && Qle_bool q 1 = true -> in_unit_interval q.
Proof.
  intros H. apply andb_prop in H. destruct H as [H0 H1].
  split; now apply Qle_bool_iff.
Qed.

Lemma unit_interval_all (l : list Q) :
  forallb (fun q => Qle_bool 0 q && Qle_bool q 1) l = true -> Forall in_unit_interval l.
Proof.
  intros H. apply Forall_forall. intros q Hq.
  apply unit_interval_dec. rewrite forallb_forall in H. now apply H.
Qed.

(** X11: once the labels have passed, a [pred_probs] that is no numpy
    array raises TypeError; an array without a length (0-d) raises what
    [len] raises; a row count different from the label count and a number
    of axes other than 2 raise ValueError, in this order.  [X] is not
    looked at and nothing is logged. *)
Theorem probs_shape_errors (E : env) (X : dataset) (y y' : labels)
    (multi_label allow_missing_classes : bool) (log : list event)
    (Hy : labels_accepted y multi_label allow_missing_classes y') :
  (forall v,
     assert_valid_inputs E X y (Some (PNotArray v)) multi_label allow_missing_classes log
     = (raise TypeError [Lit "pred_probs must be a numpy array."], log)) /\
  (forall p e, np_len p = Raised e ->
     assert_valid_inputs E X y (Some (PArray p)) multi_label allow_missing_classes log
     = (Raised e, log)) /\
  (forall p n m, np_len p = Returned n -> labels_len y' = Returned m -> n <> m ->
     assert_valid_inputs E X y (Some (PArray p)) multi_label allow_missing_classes log
     = (raise ValueError [Lit "pred_probs and labels must have same length."], log)) /\
  (forall p n, np_len p = Returned n -> labels_len y' = Returned n -> ndim p <> 2%nat ->
     assert_valid_inputs E X y (Some (PArray p)) multi_label allow_missing_classes log
     = (raise ValueError
          [Lit "pred_probs array must have shape: num_examples x num_classes."], log)).
Proof.
  split; [|split; [|split]].
  - intros v. now rewrite (inputs_probs_unfold E X y y' _ _ _ log Hy).
  - intros p e Hp. rewrite (inputs_probs_unfold E X y y' _ _ _ log Hy).
    unfold probs_checks. run_checks. now rewrite Hp.
  - intros p n m Hp Hl Hne. rewrite (inputs_probs_unfold E X y y' _ _ _ log Hy).
    unfold probs_checks. run_checks. rewrite Hp, Hl. simpl.
    apply Z.eqb_neq in Hne. now rewrite Hne.
  - intros p n Hp Hl Hd. rewrite (inputs_probs_unfold E X y y' _ _ _ log Hy).
    unfold probs_checks. run_checks. rewrite Hp, Hl. simpl. rewrite Z.eqb_refl. simpl.
    unfold ndim in Hd. apply Nat.eqb_neq in Hd. now rewrite Hd.
Qed.

Lemma probs_shape_errors_witness :
  assert_valid_inputs all_installed X_None labels_01
    (Some (PNotArray (PList [PList [PNum (1#2); PNum (1#2)]]))) false false []
  = (raise TypeError [Lit "pred_probs must be a numpy array."], []) /\
  assert_valid_inputs all_installed X_None labels_01
    (Some (PArray (mkArr [] [1#2]))) false false []
  = (raise TypeError [Lit "len() of unsized object"], []) /\
  assert_valid_inputs all_installed X_None labels_01
    (Some (PArray (mkArr [3%nat; 2%nat] [1#2; 1#2; 1#2; 1#2; 1#2; 1#2]))) false false []
  = (raise ValueError [Lit "pred_probs and labels must have same length."], []) /\
  assert_valid_inputs all_installed X_None labels_01
    (Some (PArray (mkArr [2%nat] [1#2; 1#2]))) false false []
  = (raise ValueError
       [Lit "pred_probs array must have shape: num_examples x num_classes."], []).
Proof.
  pose proof (probs_shape_errors all_installed X_None labels_01 (LArray array_01)
                false false [] accepted_01) as [H1 [H2 [H3 H4]]].
  split; [apply H1|]. split; [now apply H2|].
  split; [now apply (H3 _ 3%Z 2%Z) | now apply (H4 _ 2%Z)].
Defined.



(** X13: a [pred_probs] of the right shape without any element (no
    rows, with no labels) is stopped by numpy: the ValueError of [np.min]
    on an empty array reaches the caller. *)
Theorem empty_probs_numpy_error (E : env) (X : dataset) (y y' : labels) (p : ndarray)
    (multi_label allow_missing_classes : bool) (n : Z) (log : list event) :
  labels_accepted y multi_label allow_missing_classes y' ->
  np_len p = Returned n -> labels_len y' = Returned n -> ndim p = 2%nat ->
  data p = [] ->
  assert_valid_inputs E X y (Some (PArray p)) multi_label allow_missing_classes log
  = (raise ValueError (zero_size "minimum"), log).
Proof.
  intros Hy Hp Hl Hd He. rewrite (inputs_probs_unfold E X y y' _ _ _ log Hy).
  now apply probs_checks_empty with n.
Qed.

Lemma empty_probs_numpy_error_witness :
  assert_valid_inputs all_installed X_None no_labels (Some (PArray probs_empty)) false true []
  = (raise ValueError (zero_size "minimum"), []).
Proof.
  apply (empty_probs_numpy_error all_installed X_None no_labels (LArray (mkArr [0%nat] []))
           probs_empty false true 0%Z []).
  - exact accepted_none.
  - reflexivity.
  - reflexivity.
  - reflexivity.
  - reflexivity.
Defined.

(** X14: with the default flags, when the number of distinct labels
    differs from the number of columns of an otherwise valid [pred_probs],
    the caller gets a ValueError that reports both numbers; the warning
    about [X], if [X] is given, has been emitted by then. *)
Theorem class_count_mismatch_rejected (E : env) (X : dataset) (y : labels) (a p : ndarray)
    (n k : Z) (log : list event) :
  labels_accepted y false false (LArray a) ->
  np_len p = Returned n -> np_len a = Returned n -> ndim p = 2%nat ->
  data p <> [] -> Forall in_unit_interval (data p) ->
  shape_at p 1 = Returned k ->
  Z.of_nat (List.length (np_unique (data a))) <> k ->
  assert_valid_inputs E X y (Some (PArray p)) false false log
  = (raise ValueError (class_count_msg k (Z.of_nat (List.length (np_unique (data a))))),
     log ++ warning_for X).
Proof.
  intros Hy Hp Hl Hd Hne Hr Hk Hc. rewrite (inputs_probs_unfold E X y _ _ _ _ log Hy).
  rewrite (probs_checks_counted X (LArray a) a p n k log); auto.
  apply Z.eqb_neq in Hc. now rewrite Hc.
Qed.

Lemma class_count_mismatch_rejected_witness :
  assert_valid_inputs all_installed features_2x2 labels_01 (Some (PArray probs_2x3))
    false false []
  = (raise ValueError (class_count_msg 3 2), [Warned both_given]).
Proof.
  apply (class_count_mismatch_rejected all_installed features_2x2 labels_01 array_01
           probs_2x3 2%Z 3%Z []).
  - exact accepted_01.
  - reflexivity.
  - reflexivity.
  - reflexivity.
  - discriminate.
  - apply unit_interval_all. reflexivity.
  - reflexivity.
  - simpl. lia.
Defined.

(** X15: labels that pass, and a non-empty 2D [pred_probs] with one row per
    label and all values in [0, 1], are accepted whenever the class count
    is not checked (multi-label, or missing classes allowed) or equals the
    number of columns; the log gains the warning exactly when [X] is given. *)
Theorem valid_probs_accepted (E : env) (X : dataset) (y y' : labels) (p : ndarray)
    (multi_label allow_missing_classes : bool) (n : Z) (log : list event) :
  labels_accepted y multi_label allow_missing_classes y' ->
  np_len p = Returned n -> labels_len y' = Returned n -> ndim p = 2%nat ->
  data p <> [] -> Forall in_unit_interval (data p) ->
  (allow_missing_classes || multi_label = true \/
   exists a, labels_asarray y' = Returned a /\
             shape_at p 1 = Returned (Z.of_nat (List.length (np_unique (data a))))) ->
  assert_valid_inputs E X y (Some (PArray p)) multi_label allow_missing_classes log
  = (Returned tt, log ++ warning_for X).
Proof.
  intros Hy Hp Hl Hd Hne Hr Hc. rewrite (inputs_probs_unfold E X y y' _ _ _ log Hy).
  destruct (allow_missing_classes || multi_label) eqn:Hf.
  - now apply probs_checks_relaxed with n.
  - destruct Hc as [Hc|[a [Ha Hk]]]; [discriminate|].
    apply orb_false_elim in Hf. destruct Hf as [-> ->].
    rewrite (probs_checks_counted X y' a p n _ log Hp Hl Hd Hne Hr Ha Hk).
    now rewrite Z.eqb_refl.
Qed.

Lemma valid_probs_accepted_witness :
  assert_valid_inputs all_installed features_2x2 labels_01 (Some probs_2x2) false false []
  = (Returned tt, [Warned both_given]) /\
  assert_valid_inputs all_installed X_None labels_01 (Some (PArray probs_2x3)) false true []
  = (Returned tt, []).
Proof.
  split.
  - apply (valid_probs_accepted all_installed features_2x2 labels_01 (LArray array_01)
             (mkArr [2%nat; 2%nat] [9#10; 1#10; 2#10; 8#10]) false false 2%Z []).
    + exact accepted_01.
    + reflexivity.
    + reflexivity.
    + reflexivity.
    + discriminate.
    + apply unit_interval_all. reflexivity.
    + right. exists array_01. split; reflexivity.
  - apply (valid_probs_accepted all_installed X_None labels_01 (LArray array_01)
             probs_2x3 false true 2%Z []).
    + split; [reflexivity|]. exists array_01. split; [reflexivity|]. split; reflexivity.
    + reflexivity.
    + reflexivity.
    + reflexivity.
    + discriminate.
    + apply unit_interval_all. reflexivity.
    + left. reflexivity.
Defined.

End MoreProbabilities.

(** ** What acceptance means *)

Section Soundness.

Local Open Scope Q_scope.







End Soundness.

(** ** The indexing check *)

Section MoreIndexing.

Local Open Scope Z_scope.

(** X18: the first protocol that applies and succeeds ends the indexing
    check.  A pandas container whose [.iloc] works passes on that attempt
    alone; a torch Dataset (torch importable) passes by being wrapped in a
    [Subset]; a tensorflow Dataset (tensorflow importable) passes untouched.
    In none of these cases is [X[idx]] tried. *)
Theorem first_protocol_ends_check (E : env) (X : dataset) (idx : option (list Z))
    (length_X : option Z) (log : list event) :
  (is_pandas X = true -> x_iloc X (sampled idx length_X) = Returned tt ->
   assert_indexing_works E X idx length_X log
   = (Returned tt, log ++ [Probed (IlocAt (sampled idx length_X))])) /\
  (torch_installed E = true -> is_torch_Dataset X = true ->
   assert_indexing_works E X idx length_X log
   = (Returned tt, log ++ [Probed (SubsetOf (sampled idx length_X))])) /\
  (tensorflow_installed E = true -> is_tf_Dataset X = true ->
   assert_indexing_works E X idx length_X log = (Returned tt, log)).
Proof.
  rewrite indexing_at_sampled. split; [|split].
  - apply indexing_iloc_ok.
  - apply indexing_torch.
  - apply indexing_tf.
Qed.

Lemma first_protocol_ends_check_witness :
  assert_indexing_works all_installed frame_2x6 None (Some 2) []
  = (Returned tt, [Probed (IlocAt [0; 1])]) /\
  assert_indexing_works all_installed (X_torch 5) None (Some 5) []
  = (Returned tt, [Probed (SubsetOf [0; 4])]) /\
  assert_indexing_works all_installed X_tf None None [] = (Returned tt, []).
Proof.
  split; [|split].
  - apply (proj1 (first_protocol_ends_check all_installed frame_2x6 None (Some 2) []));
      reflexivity.
  - apply (proj1 (proj2 (first_protocol_ends_check all_installed (X_torch 5) None
                           (Some 5) []))); reflexivity.
  - apply (proj2 (proj2 (first_protocol_ends_check all_installed X_tf None None [])));
      reflexivity.
Defined.

(** X19: an error that is no [Exception] (a KeyboardInterrupt, say) raised
    by [.iloc] on a pandas container, or by [X[idx]] when no earlier
    protocol passed, is not caught: it reaches the caller as it is. *)
Theorem indexing_lets_interrupts_through (E : env) (X : dataset) (idx : option (list Z))
    (length_X : option Z) (log : list event) (e : exn) (He : Exception e = false) :
  (is_pandas X = true -> x_iloc X (sampled idx length_X) = Raised e ->
   fst (assert_indexing_works E X idx length_X log) = Raised e) /\
  (iloc_fails X (sampled idx length_X) -> torch_fails E X -> tf_fails E X ->
   x_getitem X (sampled idx length_X) = Raised e ->
   fst (assert_indexing_works E X idx length_X log) = Raised e).
Proof.
  rewrite indexing_at_sampled. split.
  - intros Hp Hi. now rewrite (indexing_iloc_uncaught E X _ e log Hp Hi He).
  - intros Hi Ht Hf Hg. now apply indexing_getitem_uncaught.
Qed.

Lemma indexing_lets_interrupts_through_witness :
  fst (assert_indexing_works all_installed interrupted_frame None None [])
  = Raised (mkExn KeyboardInterrupt []).
Proof.
  apply (proj1 (indexing_lets_interrupts_through all_installed interrupted_frame None None []
                  (mkExn KeyboardInterrupt []) eq_refl)); reflexivity.
Defined.

(** X20: when the indexing check returns normally, one of the four
    protocols applied to [X] and succeeded at the sampled positions. *)
Theorem indexing_passes_by_a_protocol (E : env) (X : dataset) (idx : option (list Z))
    (length_X : option Z) (log : list event) :
  fst (assert_indexing_works E X idx length_X log) = Returned tt ->
  protocol_succeeds E X (sampled idx length_X).
Proof.
  rewrite indexing_at_sampled. apply indexing_sound.
Qed.

Lemma indexing_passes_by_a_protocol_witness :
  protocol_succeeds all_installed only_brackets (sampled None (Some 2)).
Proof.
  apply (indexing_passes_by_a_protocol all_installed only_brackets None (Some 2) []).
  reflexivity.
Defined.

(** X21: the indexing check has three outcomes and no other: it returns, it
    raises its own TypeError, or it lets through an error of [X] that is no
    [Exception]. *)
Theorem indexing_outcomes_exhaustive (E : env) (X : dataset) (idx : option (list Z))
    (length_X : option Z) (log : list event) :
  fst (assert_indexing_works E X idx length_X log) = Returned tt \/
  fst (assert_indexing_works E X idx length_X log) = raise TypeError [Lit indexing_msg] \/
  exists e, fst (assert_indexing_works E X idx length_X log) = Raised e /\
            Exception e = false.
Proof.
  rewrite indexing_at_sampled. apply indexing_exhaustive.
Qed.

End MoreIndexing.
